(** * Anxiety-detection plugin: telemetry-to-feature pipeline and
      intervention decision, embedded from the Python sources

    Sources embedded here:
    - [feature_extractor.py]  (class [FeatureExtractor])
    - [model_loader.py]       (class [ModelLoader], [predict_from_dict])
    - [anxiety_detector.py]   (class [AnxietyDetector])

    Modelling conventions.
    - A Python [str] is a [string] of ASCII characters; the regular
      expression engine works on [list ascii].
    - A Python [float] is its exact rational value in [Q]; the arithmetic
      of the source is carried out without rounding.  [np.mean] is the
      exact mean; [np.std] (a square root) is a parameter.
    - A naive [datetime] is the number of microseconds since an arbitrary
      origin, in [Z]; [datetime.fromisoformat] is a parameter.
    - A Python [dict] keyed by strings is an association list in insertion
      order with unique keys ([list(d.values())] in [predict_from_dict]
      depends on that order).
    - A raised exception is the [Err] branch of [result]; state that the
      source mutates before the raise is threaded explicitly. *)

From Stdlib Require Import List String Ascii Bool Arith ZArith QArith Lia Lqa.
Import ListNotations.

Set Implicit Arguments.

(** ** Python runtime: exceptions, strings, dictionaries *)

Module Py.

Inductive exn : Type :=
| KeyError
| ValueError
| TypeError
| IndexError
| AttributeError.

Inductive result (A : Type) : Type :=
| Ok (a : A)
| Err (e : exn).

Arguments Ok {A} a.
Arguments Err {A} e.

Definition bind {A B : Type} (m : result A) (k : A -> result B) : result B :=
  match m with
  | Ok a => k a
  | Err e => Err e
  end.

Definition is_err {A : Type} (m : result A) : bool :=
  match m with
  | Ok _ => false
  | Err _ => true
  end.

(** [for x in l: f(x)] collecting the values, stopping at the first raise. *)
Fixpoint mapM {A B : Type} (f : A -> result B) (l : list A) : result (list B) :=
  match l with
  | [] => Ok []
  | x :: l' =>
      match f x with
      | Err e => Err e
      | Ok y =>
          match mapM f l' with
          | Err e => Err e
          | Ok ys => Ok (y :: ys)
          end
      end
  end.

(** Character classes as Python's [re] and [str] methods see them, on the
    ASCII range. *)
Definition code (c : ascii) : nat := nat_of_ascii c.

Definition between (lo hi : nat) (c : ascii) : bool :=
  (lo <=? code c)%nat && (code c <=? hi)%nat.

Definition is_digit (c : ascii) : bool := between 48 57 c.
Definition is_upper (c : ascii) : bool := between 65 90 c.
Definition is_lower (c : ascii) : bool := between 97 122 c.
Definition is_alpha (c : ascii) : bool := is_upper c || is_lower c.
Definition is_hex_lower (c : ascii) : bool := is_digit c || between 97 102 c.

(** [\w]: letters, digits and the underscore. *)
Definition is_word (c : ascii) : bool :=
  is_alpha c || is_digit c || (code c =? 95)%nat.

(** [str.isspace] and [\s]: TAB, LF, VT, FF, CR, FS, GS, RS, US, SPACE. *)
Definition is_space (c : ascii) : bool :=
  between 9 13 c || between 28 31 c || (code c =? 32)%nat.

Definition lower_char (c : ascii) : ascii :=
  if is_upper c then ascii_of_nat (code c + 32) else c.

(** [str.lower()] *)
Definition lower (s : list ascii) : list ascii := map lower_char s.

(** [s.split()]: the maximal runs of non-whitespace characters. *)
Fixpoint split (s : list ascii) : list (list ascii) :=
  match s with
  | [] => []
  | c :: s' =>
      if is_space c then split s'
      else
        match s' with
        | [] => [[c]]
        | c' :: _ =>
            if is_space c' then [c] :: split s'
            else
              match split s' with
              | w :: ws => (c :: w) :: ws
              | [] => [[c]]
              end
        end
  end.

(** [sep.join(ws)] *)
Fixpoint join (sep : list ascii) (ws : list (list ascii)) : list ascii :=
  match ws with
  | [] => []
  | [w] => w
  | w :: ws' => w ++ sep ++ join sep ws'
  end.

(** [s.lower()] on a [str] *)
Definition lower_string (s : string) : string :=
  string_of_list_ascii (lower (list_ascii_of_string s)).

(** [key in s] on strings: [key] occurs in [s] at some position. *)
Fixpoint contains (s key : string) : bool :=
  if String.prefix key s then true
  else
    match s with
    | EmptyString => false
    | String _ s' => contains s' key
    end.

(** A dictionary with string keys, in insertion order. *)
Definition dict (V : Type) : Type := list (string * V).

Section Dict.
Variable V : Type.

(** [k in d] *)
Fixpoint has_key (d : dict V) (k : string) : bool :=
  match d with
  | [] => false
  | (k', _) :: d' => if String.eqb k k' then true else has_key d' k
  end.

(** [d[k]] as an option ([None] is [KeyError]) *)
Fixpoint lookup (d : dict V) (k : string) : option V :=
  match d with
  | [] => None
  | (k', v) :: d' => if String.eqb k k' then Some v else lookup d' k
  end.

(** [d.get(k, default)] *)
Definition get (d : dict V) (k : string) (default : V) : V :=
  match lookup d k with
  | Some v => v
  | None => default
  end.

(** [d[k] = v]: overwrite in place, or append a new key. *)
Fixpoint set (d : dict V) (k : string) (v : V) : dict V :=
  match d with
  | [] => [(k, v)]
  | (k', v') :: d' =>
      if String.eqb k k' then (k', v) :: d' else (k', v') :: set d' k v
  end.

Definition keys (d : dict V) : list string := map fst d.

(** [list(d.values())] *)
Definition values (d : dict V) : list V := map snd d.

(** The dictionaries a program can build: no key occurs twice. *)
Definition wf (d : dict V) : Prop := NoDup (keys d).

(** [a == b] on dictionaries, as CPython decides it: same number of
    entries, and every key of [a] is in [b] with an equal value. *)
Definition dict_eqb (veq : V -> V -> bool) (a b : dict V) : bool :=
  (List.length a =? List.length b)%nat
  && forallb (fun kv => match lookup b (fst kv) with
                        | Some v => veq (snd kv) v
                        | None => false
                        end) a.
End Dict.

End Py.

(** ** The fragment of Python's [re] that the tables of the source use *)

Module Re.
Import Py.

Inductive regex : Type :=
| Chr (p : ascii -> bool)          (* one character of a class *)
| Eps                              (* the empty pattern *)
| Seq (r1 r2 : regex)              (* r1r2 *)
| Alt (r1 r2 : regex)              (* r1|r2 *)
| Star (r : regex)                 (* r*, greedy *)
| WordB.                           (* \b *)

(** [r+] *)
Definition plus (r : regex) : regex := Seq r (Star r).

Definition chr (c : ascii) : regex := Chr (Ascii.eqb c).

(** A literal, case sensitive. *)
Fixpoint lit_chars (s : list ascii) : regex :=
  match s with
  | [] => Eps
  | [c] => chr c
  | c :: s' => Seq (chr c) (lit_chars s')
  end.

Definition lit (s : string) : regex := lit_chars (list_ascii_of_string s).

(** A literal under [re.I]: each character matches both of its cases. *)
Definition chr_i (c : ascii) : regex :=
  Chr (fun x => Ascii.eqb (lower_char x) (lower_char c)).

Fixpoint lit_i_chars (s : list ascii) : regex :=
  match s with
  | [] => Eps
  | [c] => chr_i c
  | c :: s' => Seq (chr_i c) (lit_i_chars s')
  end.

Definition lit_i (s : string) : regex := lit_i_chars (list_ascii_of_string s).

(** [.]: any character except a newline. *)
Definition dot : regex := Chr (fun c => negb (code c =? 10)%nat).

(** [r1|r2|...] *)
Fixpoint alts (rs : list regex) : regex :=
  match rs with
  | [] => Chr (fun _ => false)
  | [r] => r
  | r :: rs' => Alt r (alts rs')
  end.

(** [r1r2...] *)
Fixpoint seqs (rs : list regex) : regex :=
  match rs with
  | [] => Eps
  | [r] => r
  | r :: rs' => Seq r (seqs rs')
  end.

Definition is_word_opt (c : option ascii) : bool :=
  match c with
  | Some c => is_word c
  | None => false
  end.

(** The character before the position reached after [n] characters of [s],
    when [prev] is the character before [s]. *)
Definition prev_after (prev : option ascii) (s : list ascii) (n : nat)
  : option ascii :=
  match n with
  | O => prev
  | S m => nth_error s m
  end.

(** The greedy iteration of [r*]: [step] gives the lengths that [r] can
    match; an iteration that consumes nothing is not repeated; [fuel]
    bounds the number of iterations by the length of the text. *)
Fixpoint star_ends (step : option ascii -> list ascii -> list nat)
  (fuel : nat) (prev : option ascii) (s : list ascii) : list nat :=
  match fuel with
  | O => [O]
  | S fuel' =>
      flat_map
        (fun n1 =>
           match n1 with
           | O => []
           | S _ => map (Nat.add n1)
                        (star_ends step fuel' (prev_after prev s n1)
                                   (skipn n1 s))
           end)
        (step prev s)
      ++ [O]
  end.

(** All the lengths that [r] can match at the start of [s], in the order in
    which a backtracking matcher tries them; [prev] is the character before
    [s] (for [\b]).  The head of the list is the match Python reports. *)
Fixpoint ends (r : regex) (prev : option ascii) (s : list ascii) : list nat :=
  match r with
  | Chr p =>
      match s with
      | c :: _ => if p c then [1%nat] else []
      | [] => []
      end
  | Eps => [O]
  | Seq r1 r2 =>
      flat_map
        (fun n1 => map (Nat.add n1)
                       (ends r2 (prev_after prev s n1) (skipn n1 s)))
        (ends r1 prev s)
  | Alt r1 r2 => ends r1 prev s ++ ends r2 prev s
  | Star r1 => star_ends (ends r1) (List.length s) prev s
  | WordB =>
      if xorb (is_word_opt prev) (is_word_opt (hd_error s)) then [O] else []
  end.

(** [pattern.match] at one position: the length matched. *)
Definition match_at (r : regex) (prev : option ascii) (s : list ascii)
  : option nat :=
  hd_error (ends r prev s).

(** [re.search(r, s) is not None], scanning the start positions from the
    left. *)
Fixpoint search_from (r : regex) (prev : option ascii) (s : list ascii)
  : bool :=
  match match_at r prev s with
  | Some _ => true
  | None =>
      match s with
      | [] => false
      | c :: s' => search_from r (Some c) s'
      end
  end.

Definition search (r : regex) (s : list ascii) : bool := search_from r None s.

(** [re.sub(r, repl, s)]: the leftmost non-overlapping matches, each
    replaced by [repl].  [skip] counts the characters of the current match
    that are still to be dropped. *)
Fixpoint sub_loop (r : regex) (repl : list ascii) (skip : nat)
  (prev : option ascii) (s : list ascii) : list ascii :=
  match s with
  | [] =>
      match skip with
      | O => match match_at r prev [] with
             | Some _ => repl
             | None => []
             end
      | S _ => []
      end
  | c :: s' =>
      match skip with
      | S k => sub_loop r repl k (Some c) s'
      | O =>
          match match_at r prev s with
          | Some (S k) => repl ++ sub_loop r repl k (Some c) s'
          | Some O => repl ++ c :: sub_loop r repl O (Some c) s'
          | None => c :: sub_loop r repl O (Some c) s'
          end
      end
  end.

Definition sub (r : regex) (repl : list ascii) (s : list ascii) : list ascii :=
  sub_loop r repl O None s.

End Re.

(** ** Floats as exact rationals, and the [numpy] reductions of the source *)

Module Num.

Definition Qltb (x y : Q) : bool := negb (Qle_bool y x).
Definition Qgtb (x y : Q) : bool := Qltb y x.

Definition of_nat (n : nat) : Q := inject_Z (Z.of_nat n).

Definition sum (l : list Q) : Q := fold_right Qplus 0 l.

(** [np.mean] on a non-empty list *)
Definition mean (l : list Q) : Q := sum l / of_nat (List.length l).

(** [sorted] on floats *)
Fixpoint insert_sorted (x : Q) (l : list Q) : list Q :=
  match l with
  | [] => [x]
  | y :: l' => if Qle_bool x y then x :: l else y :: insert_sorted x l'
  end.

Definition sorted (l : list Q) : list Q := fold_right insert_sorted [] l.

(** [sum(1 for x in l if p(x))] *)
Definition count {A : Type} (p : A -> bool) (l : list A) : nat :=
  List.length (filter p l).

(** [l[-n:]] *)
Definition last_n {A : Type} (n : nat) (l : list A) : list A :=
  match n with
  | O => l
  | S _ => skipn (List.length l - n) l
  end.

(** [deque(maxlen=m).append(x)] *)
Definition deque_append {A : Type} (maxlen : nat) (dq : list A) (x : A)
  : list A :=
  match maxlen with
  | O => []
  | S _ => skipn (List.length (dq ++ [x]) - maxlen) (dq ++ [x])
  end.

End Num.

(** ** feature_extractor.py *)

Module FeatureExtractor.
Import Py Re Num.

(** *** Event model *)

(** A ['timestamp'] value: an ISO-8601 string, or a [datetime] already
    parsed (microseconds). *)
Inductive timestamp : Type :=
| TsStr (s : string)
| TsDt (us : Z).

(** A keystroke event; [None] is an absent key. *)
Record keystroke : Type := {
  ks_timestamp : option timestamp;
  ks_is_backspace : option bool
}.

(** A compile event; [None] is an absent key. *)
Record compile_event : Type := {
  c_timestamp : option timestamp;
  c_success : option bool;
  c_warning_count : option Z;
  c_error_message : option string
}.

Record session_data : Type := {
  session_start : option timestamp;
  last_activity : option timestamp;
  keystrokes : option (list keystroke);
  compiles : option (list compile_event)
}.

(** [self.baseline] *)
Record baseline : Type := {
  typing_speed : Q;
  backspace_rate : Q;
  compile_success_rate : Q;
  keystroke_variance : Q;
  samples : Z
}.

(** The mutable attributes of a [FeatureExtractor]. *)
Record extractor : Type := {
  window_size : nat;
  rolling_keystrokes : list keystroke;
  rolling_compiles : list compile_event;
  the_baseline : baseline
}.

(** [FeatureExtractor.__init__] *)
Definition init (window : nat) : extractor :=
  {| window_size := window;
     rolling_keystrokes := [];
     rolling_compiles := [];
     the_baseline :=
       {| typing_speed := 40;
          backspace_rate := 15 # 100;
          compile_success_rate := 7 # 10;
          keystroke_variance := 3 # 10;
          samples := 0 |} |}.

(** *** Error normalizer and classifier *)

Definition quote : ascii := ascii_of_nat 34.
Definition apostrophe : ascii := ascii_of_nat 39.
Definition backslash : ascii := ascii_of_nat 92.

Definition not_char (c : ascii) : regex := Chr (fun x => negb (Ascii.eqb x c)).

(** [self.normalization_patterns], in the declared order. *)
Definition normalization_patterns : list (regex * string) :=
  [ (seqs [lit "line"; plus (Chr is_space); plus (Chr is_digit)], "line_num");
    (seqs [lit "column"; plus (Chr is_space); plus (Chr is_digit)], "col_num");
    (seqs [Chr is_alpha; chr ":"; chr backslash;
           Star (Seq (plus (not_char backslash)) (chr backslash))], "path");
    (seqs [lit "0x"; plus (Chr is_hex_lower)], "memory_addr");
    (seqs [WordB; plus (Chr is_digit); WordB], "number");
    (seqs [chr quote; Star (not_char quote); chr quote], "string_literal");
    (seqs [chr apostrophe; Star (not_char apostrophe); chr apostrophe],
     "char_literal") ]%string.

(** The loop [for pattern, replacement in ...: normalized = re.sub(...)]. *)
Fixpoint apply_patterns (ps : list (regex * string)) (s : list ascii)
  : list ascii :=
  match ps with
  | [] => s
  | (r, repl) :: ps' =>
      apply_patterns ps' (sub r (list_ascii_of_string repl) s)
  end.

(** [' '.join(normalized.split())] *)
Definition collapse_whitespace (s : list ascii) : list ascii :=
  join [" "%char] (split s).

(** [normalize_error_message]; the extractor is the [self] argument. *)
Definition normalize_error_message (self : extractor) (error_msg : string)
  : string :=
  string_of_list_ascii
    (collapse_whitespace
       (apply_patterns normalization_patterns
          (list_ascii_of_string error_msg))).

(** [a.*b] *)
Definition then_later (a b : string) : regex :=
  seqs [lit_i a; Star dot; lit_i b].

(** [self.error_patterns], compiled with [re.I], in the declared order. *)
Definition error_patterns : list (string * regex) :=
  [ ("syntax_error",
      alts [lit_i "syntax error"; lit_i "expected"; lit_i "unexpected"]);
    ("missing_semicolon",
      alts [then_later "expected" ";"; then_later "missing" ";"]);
    ("undefined_reference",
      alts [lit_i "undefined reference"; lit_i "unresolved external"]);
    ("missing_header",
      alts [lit_i "cannot find"; lit_i "no such file"; lit_i "include"]);
    ("segmentation_fault",
      alts [lit_i "segmentation fault"; lit_i "access violation"]);
    ("null_pointer",
      alts [lit_i "null pointer"; lit_i "nullptr"; lit_i "NULL"]);
    ("array_bounds",
      alts [lit_i "array bounds"; lit_i "out of bounds";
            then_later "index" "out of range"]);
    ("uninitialized",
      alts [lit_i "uninitialized"; lit_i "used without being initialized"]);
    ("memory_leak", alts [lit_i "memory leak"; lit_i "leaked"]);
    ("buffer_overflow",
      alts [lit_i "buffer overflow"; lit_i "stack overflow"]);
    ("type_mismatch",
      alts [lit_i "type mismatch"; lit_i "cannot convert";
            lit_i "incompatible type"]);
    ("no_matching_function",
      alts [lit_i "no matching function"; then_later "overload" "not found"]);
    ("ambiguous", alts [lit_i "ambiguous"; lit_i "more than one instance"]);
    ("redefinition", alts [lit_i "redefinition"; lit_i "multiple definition"]);
    ("undeclared", alts [lit_i "not declared"; lit_i "undeclared"]);
    ("incomplete_type",
      alts [lit_i "incomplete type"; lit_i "forward declaration"]) ]%string.

(** The loop of [classify_error] over the items of the table. *)
Fixpoint classify_loop (table : list (string * regex))
  (error_msg_lower : list ascii) : string :=
  match table with
  | [] => "unknown_error"%string
  | (error_type, pattern) :: table' =>
      if search pattern error_msg_lower then error_type
      else classify_loop table' error_msg_lower
  end.

Definition classify_error (self : extractor) (error_msg : string) : string :=
  classify_loop error_patterns (lower (list_ascii_of_string error_msg)).

(** *** Feature groups *)

Record typing_features : Type := {
  tf_typing_speed : Q;
  tf_keystroke_variance : Q;
  tf_backspace_rate : Q;
  tf_burst_speed : Q;
  tf_pause_frequency : Q
}.

Record compile_features : Type := {
  compile_error_rate : Q;
  red_metric : Q;
  warning_rate : Q;
  error_severity : Q;
  repeated_error_ratio : Q
}.

Record behavioral_features : Type := {
  focus_switches : Q;
  idle_ratio : Q;
  session_duration : Q;
  activity_intensity : Q;
  recovery_time : Q
}.

(** The degenerate typing features of the two early returns. *)
Definition typing_default : typing_features :=
  {| tf_typing_speed := 1;
     tf_keystroke_variance := 1 # 2;
     tf_backspace_rate := 0;
     tf_burst_speed := 0;
     tf_pause_frequency := 0 |}.

(** [(b - a).total_seconds()] *)
Definition total_seconds (a b : Z) : Q := inject_Z (b - a) / 1000000.

(** The differences [f(l[i-1], l[i])] for [i] in [range(1, len(l))]. *)
Fixpoint adjacent {A B : Type} (f : A -> A -> B) (l : list A) : list B :=
  match l with
  | [] => []
  | a :: l' =>
      match l' with
      | [] => []
      | b :: _ => f a b :: adjacent f l'
      end
  end.

Section Extraction.
(** [datetime.fromisoformat]; [None] is a [ValueError]. *)
Variable fromisoformat : string -> option Z.
(** [np.std] *)
Variable np_std : list Q -> Q.

Definition parse_iso (s : string) : result Z :=
  match fromisoformat s with
  | Some t => Ok t
  | None => Err ValueError
  end.

(** [ks['timestamp']]: a missing key is a [KeyError]. *)
Definition item_timestamp (ts : option timestamp) : result timestamp :=
  match ts with
  | Some t => Ok t
  | None => Err KeyError
  end.

(** The timestamps of a list of events as datetimes:
    [if isinstance(timestamps[0], str): timestamps = [fromisoformat(ts) ...]],
    then used in subtractions.  Parsing a datetime and subtracting a
    string both raise [TypeError]. *)
Definition to_datetimes (timestamps : list timestamp) : result (list Z) :=
  match timestamps with
  | TsStr _ :: _ =>
      mapM (fun ts => match ts with
                      | TsStr s => parse_iso s
                      | TsDt _ => Err TypeError
                      end) timestamps
  | _ =>
      mapM (fun ts => match ts with
                      | TsDt t => Ok t
                      | TsStr _ => Err TypeError
                      end) timestamps
  end.

Definition is_backspace (ks : keystroke) : bool :=
  match ks_is_backspace ks with
  | Some b => b
  | None => false
  end.

Definition extract_typing_features (self : extractor)
  (keystrokes : list keystroke) : result typing_features :=
  if (List.length keystrokes <? 10)%nat then Ok typing_default
  else
    bind (mapM (fun ks => item_timestamp (ks_timestamp ks)) keystrokes)
      (fun raw =>
    bind (to_datetimes raw) (fun timestamps =>
    let intervals :=
      filter (fun i => Qltb 10 i && Qltb i 5000)
             (adjacent (fun a b => total_seconds a b * 1000) timestamps) in
    match intervals with
    | [] => Ok typing_default
    | _ :: _ =>
        let total_time :=
          total_seconds (hd 0%Z timestamps) (last timestamps 0%Z) in
        let wpm :=
          if Qltb 0 total_time
          then of_nat (List.length keystrokes) / total_time * 12
          else 0 in
        let mean_interval := mean intervals in
        let std_interval := np_std intervals in
        let variance :=
          if Qltb 0 mean_interval then std_interval / mean_interval
          else 1 # 2 in
        let backspaces := count is_backspace keystrokes in
        let backspace_rate :=
          of_nat backspaces / of_nat (List.length keystrokes) in
        let sorted_intervals := sorted intervals in
        (* int(len(sorted_intervals) * 0.1) *)
        let burst_threshold := (List.length sorted_intervals / 10)%nat in
        let burst_intervals :=
          match burst_threshold with
          | O => [mean_interval]
          | S _ => firstn burst_threshold sorted_intervals
          end in
        let burst_speed := 1000 / mean burst_intervals in
        let pauses := count (fun i => Qltb 2000 i) intervals in
        let pause_freq := of_nat pauses / of_nat (List.length intervals) in
        Ok {| tf_typing_speed :=
                if Qltb 0 (typing_speed (the_baseline self))
                then wpm / typing_speed (the_baseline self)
                else 1;
              tf_keystroke_variance := variance;
              tf_backspace_rate := backspace_rate;
              tf_burst_speed := burst_speed / 10;
              tf_pause_frequency := pause_freq |}
    end)).

(** [c.get('success', True)] and [c.get('success', False)] *)
Definition get_success (c : compile_event) (default : bool) : bool :=
  match c_success c with
  | Some b => b
  | None => default
  end.

(** [not c.get('success', True)] *)
Definition failed (c : compile_event) : bool := negb (get_success c true).

Definition get_warning_count (c : compile_event) : Z :=
  match c_warning_count c with
  | Some n => n
  | None => 0%Z
  end.

(** The list [error_patterns] of [extract_compile_features]: the
    normalized message of every failed compile that has one. *)
Fixpoint collect_error_patterns (self : extractor)
  (compiles : list compile_event) : list string :=
  match compiles with
  | [] => []
  | compile_event :: rest =>
      match failed compile_event, c_error_message compile_event with
      | true, Some msg =>
          normalize_error_message self msg
          :: collect_error_patterns self rest
      | _, _ => collect_error_patterns self rest
      end
  end.

(** [repeats]: the loop [for i in range(1, len(error_patterns))]. *)
Definition count_repeats (error_patterns : list string) : nat :=
  count (fun b : bool => b)
  (adjacent (fun previous current => String.eqb current previous)
     error_patterns).

Definition severity_map : dict Q :=
  [ ("segmentation_fault", 1);
    ("memory_leak", 9 # 10);
    ("null_pointer", 8 # 10);
    ("buffer_overflow", 8 # 10);
    ("undefined_reference", 6 # 10);
    ("syntax_error", 5 # 10);
    ("type_mismatch", 4 # 10);
    ("undeclared", 3 # 10);
    ("warning", 1 # 10) ]%string.

Fixpoint collect_severities (self : extractor)
  (compiles : list compile_event) : list Q :=
  match compiles with
  | [] => []
  | compile_event :: rest =>
      match failed compile_event, c_error_message compile_event with
      | true, Some msg =>
          get severity_map (classify_error self msg) (1 # 2)
          :: collect_severities self rest
      | _, _ => collect_severities self rest
      end
  end.

Definition extract_compile_features (self : extractor)
  (compiles : list compile_event) : compile_features :=
  match compiles with
  | [] =>
      {| compile_error_rate := 0;
         red_metric := 0;
         warning_rate := 0;
         error_severity := 0;
         repeated_error_ratio := 0 |}
  | _ :: _ =>
      let total := List.length compiles in
      let failed_count := count failed compiles in
      let error_rate := of_nat failed_count / of_nat total in
      let total_warnings :=
        fold_right Z.add 0%Z (map get_warning_count compiles) in
      let warning_rate := inject_Z total_warnings / of_nat total in
      let error_patterns := collect_error_patterns self compiles in
      let red_metric :=
        if (1 <? List.length error_patterns)%nat
        then of_nat (count_repeats error_patterns)
             / of_nat (List.length error_patterns) * 10
        else 0 in
      let severities := collect_severities self compiles in
      let error_severity :=
        match severities with
        | [] => 0
        | _ :: _ => mean severities
        end in
      {| compile_error_rate := error_rate;
         red_metric := red_metric;
         warning_rate := warning_rate;
         error_severity := error_severity;
         repeated_error_ratio := red_metric / 10 |}
  end.

(** The degenerate behavioral features of the early return. *)
Definition behavioral_default : behavioral_features :=
  {| focus_switches := 0;
     idle_ratio := 0;
     session_duration := 0;
     activity_intensity := 0;
     recovery_time := 0 |}.

(** [recovery = (success_time - error_time).total_seconds()] for a failed
    compile and the successful compile found after it, with the lookups
    and conversions that precede it. *)
Definition recovery_gap (compile_event target : compile_event) : result Q :=
  bind (item_timestamp (c_timestamp compile_event)) (fun error_time =>
  bind (item_timestamp (c_timestamp target)) (fun success_time =>
  match error_time with
  | TsStr e =>
      bind (parse_iso e) (fun et =>
      match success_time with
      | TsStr s => bind (parse_iso s) (fun st => Ok (total_seconds et st))
      | TsDt _ => Err TypeError
      end)
  | TsDt et =>
      match success_time with
      | TsDt st => Ok (total_seconds et st)
      | TsStr _ => Err TypeError
      end
  end)).

(** The outer loop [for i, compile_event in enumerate(compiles[:-1])];
    [todo] is what is left of [compiles[:-1]] from index [i] on.  The
    inner loop stops at the first [compiles[j]] with
    [compiles[j].get('success', False)]. *)
Fixpoint recovery_loop (compiles : list compile_event) (i : nat)
  (todo : list compile_event) : result (list Q) :=
  match todo with
  | [] => Ok []
  | compile_event :: todo' =>
      if failed compile_event then
        match find (fun c => get_success c false) (skipn (S i) compiles) with
        | Some target =>
            bind (recovery_gap compile_event target) (fun recovery =>
            bind (recovery_loop compiles (S i) todo') (fun later =>
            Ok (if Qltb recovery 300 then recovery :: later else later)))
        | None => recovery_loop compiles (S i) todo'
        end
      else recovery_loop compiles (S i) todo'
  end.

Definition recovery_times (compiles : list compile_event)
  : result (list Q) :=
  recovery_loop compiles 0 (removelast compiles).

(** [avg_recovery / 60.0] *)
Definition recovery_minutes (recovery_times : list Q) : Q :=
  match recovery_times with
  | [] => 0
  | _ :: _ => mean recovery_times
  end / 60.

Definition session_keystrokes (session : session_data) : list keystroke :=
  match keystrokes session with
  | Some l => l
  | None => []
  end.

Definition session_compiles (session : session_data)
  : list compile_event :=
  match compiles session with
  | Some l => l
  | None => []
  end.

Definition extract_behavioral_features (self : extractor)
  (session : session_data) : result behavioral_features :=
  let keystrokes := session_keystrokes session in
  let compiles := session_compiles session in
  if (List.length keystrokes <? 5)%nat then Ok behavioral_default
  else
    bind (mapM (fun ks => item_timestamp (ks_timestamp ks)) keystrokes)
      (fun raw =>
    bind (to_datetimes raw) (fun timestamps =>
    let duration :=
      total_seconds (hd 0%Z timestamps) (last timestamps 0%Z) / 60 in
    let gaps :=
      filter (fun gap => Qltb 30 gap) (adjacent total_seconds timestamps) in
    let focus_switches := List.length gaps in
    let idle_time := sum gaps in
    let idle_ratio :=
      if Qltb 0 duration then idle_time / (duration * 60) else 0 in
    let intensity :=
      if Qltb 0 duration then of_nat (List.length keystrokes) / duration
      else 0 in
    bind (recovery_times compiles) (fun recovery_times =>
    Ok {| focus_switches := of_nat focus_switches;
          idle_ratio := idle_ratio;
          session_duration := duration;
          activity_intensity := intensity / 100;
          recovery_time := recovery_minutes recovery_times |}))).

(** [get_feature_names] *)
Definition get_feature_names : list string :=
  [ "TYPING_SPEED"; "KEYSTROKE_RATE"; "BACKSPACE_RATE"; "COMPILE_ERROR";
    "RED_METRIC"; "FOCUS_SWITCHES"; "IDLE_TO_ACTIVE_RATIO";
    "UNDO_REDO_ATTEMPT" ]%string.

(** The two loops that feed the rolling windows. *)
Definition update_rolling (self : extractor) (session : session_data)
  : extractor :=
  {| window_size := window_size self;
     rolling_keystrokes :=
       fold_left (deque_append (window_size self))
         (last_n (window_size self) (session_keystrokes session))
         (rolling_keystrokes self);
     rolling_compiles :=
       fold_left (deque_append (window_size self / 10))
         (last_n 10 (session_compiles session))
         (rolling_compiles self);
     the_baseline := the_baseline self |}.

(** [extract_all_features]: the feature dictionary or the exception
    raised, and the extractor after the call. *)
Definition extract_all_features (self : extractor) (session : session_data)
  : result (dict Q) * extractor :=
  let self' := update_rolling self session in
  (bind (extract_typing_features self' (session_keystrokes session))
     (fun typing =>
   let compile :=
     extract_compile_features self' (session_compiles session) in
   bind (extract_behavioral_features self' session) (fun behavioral =>
   Ok [ ("TYPING_SPEED", tf_typing_speed typing);
        ("KEYSTROKE_RATE", tf_keystroke_variance typing);
        ("BACKSPACE_RATE", tf_backspace_rate typing);
        ("COMPILE_ERROR", compile_error_rate compile);
        ("RED_METRIC", red_metric compile);
        ("FOCUS_SWITCHES", focus_switches behavioral);
        ("IDLE_TO_ACTIVE_RATIO", idle_ratio behavioral);
        ("UNDO_REDO_ATTEMPT",
          if Qltb (4 # 10) (tf_backspace_rate typing) then 1 else 0)
      ]%string)),
   self').

End Extraction.

(** [update_baseline(features, weight)] *)
Definition update_baseline (self : extractor) (features : dict Q)
  (weight : Q) : extractor :=
  let b := the_baseline self in
  {| window_size := window_size self;
     rolling_keystrokes := rolling_keystrokes self;
     rolling_compiles := rolling_compiles self;
     the_baseline :=
       {| typing_speed :=
            (1 - weight) * typing_speed b
            + weight * get features "TYPING_SPEED" 1 * 40;
          backspace_rate :=
            (1 - weight) * backspace_rate b
            + weight * get features "BACKSPACE_RATE" (15 # 100);
          compile_success_rate := compile_success_rate b;
          keystroke_variance :=
            (1 - weight) * keystroke_variance b
            + weight * get features "KEYSTROKE_RATE" (3 # 10);
          samples := (samples b + 1)%Z |} |}.

(** The comprehension [{names[i]: float(vector[i]) for i in range(len(vector))}];
    [names[i]] past the end raises [IndexError]. *)
Fixpoint vector_to_dict_loop (names : list string) (i : nat)
  (vector : list Q) (acc : dict Q) : result (dict Q) :=
  match vector with
  | [] => Ok acc
  | v :: vector' =>
      match nth_error names i with
      | None => Err IndexError
      | Some name => vector_to_dict_loop names (S i) vector' (set acc name v)
      end
  end.

Definition feature_vector_to_dict (vector : list Q) : result (dict Q) :=
  vector_to_dict_loop get_feature_names 0 vector [].

Definition dict_to_feature_vector (feature_dict : dict Q) : list Q :=
  map (fun name => get feature_dict name 0) get_feature_names.

(** A value of a decoded JSON object, as [datetime_parser] looks at it: a
    string, a datetime, or anything else. *)
Inductive json_value (A : Type) : Type :=
| JStr (s : string)
| JDatetime (t : Z)
| JOther (a : A).

Arguments JStr {A} s.
Arguments JDatetime {A} t.
Arguments JOther {A} a.

(** The helper [datetime_parser]: every string value that
    [datetime.fromisoformat] accepts is replaced by the datetime; the
    [ValueError] of the others is swallowed. *)
Definition datetime_parser {A : Type} (fromisoformat : string -> option Z)
  (dct : dict (json_value A)) : dict (json_value A) :=
  map (fun kv =>
         match snd kv with
         | JStr value =>
             match fromisoformat value with
             | Some t => (fst kv, JDatetime t)
             | None => kv
             end
         | _ => kv
         end) dct.

End FeatureExtractor.

(** ** model_loader.py *)

Module ModelLoader.
Import Py Num.

(** What [ModelLoader.predict] returns: the decoded class, the confidence
    and the class probabilities. *)
Definition prediction : Type := (string * Q * list Q)%type.

(** A [ModelLoader] after a successful [load_models].  The pickled model,
    scaler and label encoder are external objects: [predict] stands for the
    method [ModelLoader.predict] applied to the one-row array built from a
    feature vector (it raises when the scaler or the model rejects the
    vector), [label_classes] for [label_encoder.classes_].  [feature_names]
    is the content of the optional file [feature_names.json]. *)
Record model_loader : Type := {
  feature_names : option (list string);
  label_classes : list string;
  predict : list Q -> result prediction
}.

(** The vector that [predict_from_dict] builds from the dictionary. *)
Definition feature_vector (self : model_loader) (feature_dict : dict Q)
  : list Q :=
  match feature_names self with
  | Some (name :: names) =>
      map (fun name => get feature_dict name 0) (name :: names)
  | _ => values feature_dict
  end.

(** [{str(class_names[i]): float(probabilities[i]) for i in range(len(probabilities))}] *)
Fixpoint prob_dict_loop (class_names : list string) (i : nat)
  (probabilities : list Q) (acc : dict Q) : result (dict Q) :=
  match probabilities with
  | [] => Ok acc
  | p :: probabilities' =>
      match nth_error class_names i with
      | None => Err IndexError
      | Some name =>
          prob_dict_loop class_names (S i) probabilities' (set acc name p)
      end
  end.

Definition predict_from_dict (self : model_loader) (feature_dict : dict Q)
  : result (string * Q * dict Q) :=
  let feature_vector := feature_vector self feature_dict in
  bind (predict self feature_vector) (fun '(predicted_class, confidence, probabilities) =>
  bind (prob_dict_loop (label_classes self) 0 probabilities [])
    (fun prob_dict => Ok (predicted_class, confidence, prob_dict))).

(** [validate_features]: whether every loaded feature name is a key of the
    dictionary, and the names that are not. *)
Definition validate_features (self : model_loader) (feature_dict : dict Q)
  : bool * list string :=
  match feature_names self with
  | Some (name :: names) =>
      let missing :=
        filter (fun name => negb (has_key feature_dict name)) (name :: names) in
      ((List.length missing =? 0)%nat, missing)
  | _ => (true, [])
  end.

End ModelLoader.

(** ** anxiety_detector.py *)

Module AnxietyDetector.
Import Py Num FeatureExtractor ModelLoader.

(** The mutable attributes of an [AnxietyDetector]. *)
Record detector : Type := {
  the_model_loader : model_loader;
  feature_extractor : extractor;
  last_intervention : option Z;
  intervention_cooldown : Z
}.

(** [AnxietyDetector.__init__] once the models are loaded. *)
Definition init (loader : model_loader) : detector :=
  {| the_model_loader := loader;
     feature_extractor := FeatureExtractor.init 100;
     last_intervention := None;
     intervention_cooldown := 300 |}.

Definition with_extractor (self : detector) (fe : extractor) : detector :=
  {| the_model_loader := the_model_loader self;
     feature_extractor := fe;
     last_intervention := last_intervention self;
     intervention_cooldown := intervention_cooldown self |}.

Definition with_last_intervention (self : detector) (t : Z) : detector :=
  {| the_model_loader := the_model_loader self;
     feature_extractor := feature_extractor self;
     last_intervention := Some t;
     intervention_cooldown := intervention_cooldown self |}.

(** [triggered.append(reason)] when the test holds. *)
Definition append_if (test : bool) (reason : string) (triggered : list string)
  : list string :=
  if test then triggered ++ [reason] else triggered.

Definition get_triggered_features (features : dict Q) : list string :=
  let triggered := [] in
  let triggered :=
    append_if (Qgtb (get features "RED_METRIC" 0) (25 # 10))
      "Repeated Errors" triggered in
  let triggered :=
    append_if (Qltb (get features "TYPING_SPEED" 1) (65 # 100))
      "Slow Typing" triggered in
  let triggered :=
    append_if (Qgtb (get features "BACKSPACE_RATE" 0) (3 # 10))
      "Excessive Corrections" triggered in
  let triggered :=
    append_if (Qgtb (get features "KEYSTROKE_RATE" 0) (5 # 10))
      "Irregular Rhythm" triggered in
  let triggered :=
    append_if (Qgtb (get features "COMPILE_ERROR" 0) (5 # 10))
      "Frequent Compilation Errors" triggered in
  let triggered :=
    append_if (Qgtb (get features "FOCUS_SWITCHES" 0) 5)
      "Frequent Context Switching" triggered in
  match triggered with
  | [] => ["Normal Pattern"%string]
  | _ :: _ => triggered
  end.

(** [anxiety_level in ['High', 'Extreme']] *)
Definition level_is_high (anxiety_level : string) : bool :=
  String.eqb anxiety_level "High" || String.eqb anxiety_level "Extreme".

(** [should_intervene].  [now_check] is what [datetime.now()] returns in the
    cooldown test and [now_stamp] what it returns when the intervention is
    recorded. *)
Definition should_intervene (self : detector) (anxiety_level : string)
  (confidence : Q) (now_check now_stamp : Z) : bool * detector :=
  let cooling :=
    match last_intervention self with
    | Some last =>
        Qltb (total_seconds last now_check)
             (inject_Z (intervention_cooldown self))
    | None => false
    end in
  if cooling then (false, self)
  else if level_is_high anxiety_level && Qgtb confidence (7 # 10)
       then (true, with_last_intervention self now_stamp)
       else (false, self).

(** The dictionary that [analyze_session] returns. *)
Record analysis : Type := {
  a_level : string;
  a_confidence : Q;
  a_probabilities : dict Q;
  a_features : dict Q;
  a_triggered_features : list string;
  a_timestamp : Z;
  a_should_intervene : bool
}.

Section Analyze.
Variable fromisoformat : string -> option Z.
Variable np_std : list Q -> Q.

(** [if 'timestamp' in x and isinstance(x['timestamp'], str):
       x['timestamp'] = datetime.fromisoformat(x['timestamp'])] *)
Definition parse_field (ts : option timestamp) : result (option timestamp) :=
  match ts with
  | Some (TsStr s) =>
      bind (parse_iso fromisoformat s) (fun t => Ok (Some (TsDt t)))
  | other => Ok other
  end.

Definition parse_keystroke (ks : keystroke) : result keystroke :=
  bind (parse_field (ks_timestamp ks)) (fun ts =>
  Ok {| ks_timestamp := ts; ks_is_backspace := ks_is_backspace ks |}).

Definition parse_compile (comp : compile_event) : result compile_event :=
  bind (parse_field (c_timestamp comp)) (fun ts =>
  Ok {| c_timestamp := ts;
        c_success := c_success comp;
        c_warning_count := c_warning_count comp;
        c_error_message := c_error_message comp |}).

Definition parse_list {A : Type} (f : A -> result A) (l : option (list A))
  : result (option (list A)) :=
  match l with
  | Some l => bind (mapM f l) (fun l' => Ok (Some l'))
  | None => Ok None
  end.

(** The first part of [analyze_session]: the datetime strings of the
    session are parsed in place. *)
Definition parse_session (session : session_data) : result session_data :=
  bind (parse_field (session_start session)) (fun start =>
  bind (parse_field (last_activity session)) (fun activity =>
  bind (parse_list parse_keystroke (keystrokes session)) (fun kss =>
  bind (parse_list parse_compile (compiles session)) (fun comps =>
  Ok {| session_start := start;
        last_activity := activity;
        keystrokes := kss;
        compiles := comps |})))).

(** [analyze_session]: the analysis or the exception raised, and the
    detector after the call.  [now_result] is the [datetime.now()] of the
    returned timestamp. *)
Definition analyze_session (self : detector) (session : session_data)
  (now_check now_stamp now_result : Z) : result analysis * detector :=
  match parse_session session with
  | Err e => (Err e, self)
  | Ok session =>
      match extract_all_features fromisoformat np_std
              (feature_extractor self) session with
      | (Err e, fe) => (Err e, with_extractor self fe)
      | (Ok features, fe) =>
          let self := with_extractor self (update_baseline fe features (1 # 10)) in
          match predict_from_dict (the_model_loader self) features with
          | Err e => (Err e, self)
          | Ok (predicted_class, confidence, probabilities) =>
              let triggered := get_triggered_features features in
              let '(should, self) :=
                should_intervene self predicted_class confidence
                  now_check now_stamp in
              (Ok {| a_level := predicted_class;
                     a_confidence := confidence;
                     a_probabilities := probabilities;
                     a_features := features;
                     a_triggered_features := triggered;
                     a_timestamp := now_result;
                     a_should_intervene := should |},
               self)
          end
      end
  end.

End Analyze.

(** The table [hints] of [get_error_hint], in the declared order. *)
Definition hints : list (string * string) :=
  [ ("syntax_error",
      "Check for missing semicolons, brackets, or parentheses");
    ("missing_semicolon",
      "You might be missing a semicolon at the end of a statement");
    ("undefined_reference",
      "You might be missing a header file or library link");
    ("missing_header",
      "Check if you've included the necessary header files");
    ("segmentation_fault", "Check for null pointers or array bounds");
    ("null_pointer", "Make sure to initialize pointers before using them");
    ("array_bounds", "Ensure array indices are within bounds");
    ("uninitialized", "Initialize variables before using them");
    ("memory_leak", "Remember to free allocated memory");
    ("buffer_overflow", "Check array sizes and string lengths");
    ("type_mismatch", "Ensure types are compatible");
    ("no_matching_function", "Check function parameters and overloads");
    ("ambiguous", "Make the call more specific");
    ("redefinition", "Remove duplicate declarations");
    ("undeclared", "Declare variables before using them");
    ("incomplete_type", "Include the full type definition") ]%string.

Definition default_hint : string :=
  "Take a deep breath. Try breaking down the problem into smaller parts.".

(** The loop [for key, hint in hints.items(): if key in error_type.lower()]. *)
Fixpoint hint_loop (table : list (string * string))
  (error_type_lower : string) : string :=
  match table with
  | [] => default_hint
  | (key, hint) :: table' =>
      if contains error_type_lower key then hint
      else hint_loop table' error_type_lower
  end.

Definition get_error_hint (self : detector) (error_type : string) : string :=
  hint_loop hints (lower_string error_type).

(** The attributes of a [PipeServer] that [handle_request] uses. *)
Record server : Type := {
  the_detector : option detector;
  running : bool
}.

(** A decoded request; [None] is an absent key. *)
Record request : Type := {
  r_type : option string;
  r_model_dir : option string;
  r_session : option session_data;
  r_error_type : option string
}.

(** The dictionaries that [handle_request] returns. *)
Inductive response : Type :=
| StatusMessage (status message : string)
| StatusPrediction (status : string) (prediction : analysis)
| StatusHint (status hint : string).

(** [data.get('session', {})] *)
Definition no_session : session_data :=
  {| session_start := None;
     last_activity := None;
     keystrokes := None;
     compiles := None |}.

(** [f'{request_type}'] *)
Definition format_type (request_type : option string) : string :=
  match request_type with
  | Some t => t
  | None => "None"
  end.

Section Server.
Variable fromisoformat : string -> option Z.
Variable np_std : list Q -> Q.
(** What loading the models of a directory gives: the loader when
    [AnxietyDetector(model_dir)] succeeds, [None] when it raises. *)
Variable load_models : option string -> option model_loader.

(** [initialize_detector] *)
Definition initialize_detector (self : server) (model_dir : option string)
  : bool * server :=
  match load_models model_dir with
  | Some loader =>
      (true, {| the_detector := Some (init loader); running := running self |})
  | None => (false, self)
  end.

(** [handle_request]: the response or the exception that leaves the
    method, and the server after the call. *)
Definition handle_request (self : server) (data : request)
  (now_check now_stamp now_result : Z) : result response * server :=
  let request_type := r_type data in
  let is_type (name : string) :=
    match request_type with
    | Some t => String.eqb t name
    | None => false
    end in
  if is_type "initialize"%string then
    let '(success, self) := initialize_detector self (r_model_dir data) in
    (Ok (StatusMessage (if success then "ok" else "error")
           (if success then "Detector initialized"
            else "Initialization failed")), self)
  else if is_type "analyze"%string then
    match the_detector self with
    | None => (Ok (StatusMessage "error" "Detector not initialized"), self)
    | Some detector =>
        let session_data :=
          match r_session data with
          | Some session => session
          | None => no_session
          end in
        let '(result, detector) :=
          analyze_session fromisoformat np_std detector session_data
            now_check now_stamp now_result in
        let self := {| the_detector := Some detector;
                       running := running self |} in
        match result with
        | Ok prediction => (Ok (StatusPrediction "ok" prediction), self)
        | Err e => (Err e, self)
        end
    end
  else if is_type "get_hint"%string then
    match the_detector self with
    | None => (Ok (StatusMessage "error" "Detector not initialized"), self)
    | Some detector =>
        let error_type :=
          match r_error_type data with
          | Some error_type => error_type
          | None => EmptyString
          end in
        (Ok (StatusHint "ok" (get_error_hint detector error_type)), self)
    end
  else if is_type "shutdown"%string then
    (Ok (StatusMessage "ok" "Shutting down"),
     {| the_detector := the_detector self; running := false |})
  else
    (Ok (StatusMessage "error"
           ("Unknown request type: " ++ format_type request_type)), self).

End Server.

(** A call of [should_intervene] with the clock readings it makes. *)
Record call : Type := {
  call_level : string;
  call_confidence : Q;
  call_now_check : Z;
  call_now_stamp : Z
}.

(** A sequence of calls on one detector: the decisions, in order. *)
Fixpoint run (self : detector) (calls : list call) : list bool :=
  match calls with
  | [] => []
  | c :: calls' =>
      let '(b, self') :=
        should_intervene self (call_level c) (call_confidence c)
          (call_now_check c) (call_now_stamp c) in
      b :: run self' calls'
  end.

(** The detector after a sequence of calls. *)
Fixpoint run_state (self : detector) (calls : list call) : detector :=
  match calls with
  | [] => self
  | c :: calls' =>
      run_state
        (snd (should_intervene self (call_level c) (call_confidence c)
                (call_now_check c) (call_now_stamp c)))
        calls'
  end.

(** The readings of the clock during a sequence of calls, in order. *)
Definition readings (calls : list call) : list Z :=
  flat_map (fun c => [call_now_check c; call_now_stamp c]) calls.

(** The clock does not go back. *)
Fixpoint nondecreasing (l : list Z) : Prop :=
  match l with
  | [] => True
  | a :: l' =>
      match l' with
      | [] => True
      | b :: _ => (a <= b)%Z /\ nondecreasing l'
      end
  end.

End AnxietyDetector.

(** * Properties *)

Import Py Re Num FeatureExtractor ModelLoader AnxietyDetector.

Unset Implicit Arguments.

(** ** Definitions used by the statements: the specification's wording of
    the rules, and the sessions, calls and loaders of the examples *)

(** The six threshold checks as the specification lists them, in the fixed
    order, each with its reason. *)
Definition threshold_checks (features : dict Q) : list (bool * string) :=
  [ (Qgtb (get features "RED_METRIC" 0) (25 # 10), "Repeated Errors");
    (Qltb (get features "TYPING_SPEED" 1) (65 # 100), "Slow Typing");
    (Qgtb (get features "BACKSPACE_RATE" 0) (3 # 10), "Excessive Corrections");
    (Qgtb (get features "KEYSTROKE_RATE" 0) (5 # 10), "Irregular Rhythm");
    (Qgtb (get features "COMPILE_ERROR" 0) (5 # 10),
      "Frequent Compilation Errors");
    (Qgtb (get features "FOCUS_SWITCHES" 0) 5,
      "Frequent Context Switching") ]%string.

(** The reasons of the checks that fire, in order. *)
Definition fired (features : dict Q) : list string :=
  map snd (filter fst (threshold_checks features)).

(** The categories of the table, in the declared order. *)
Definition categories : list string :=
  [ "syntax_error"; "missing_semicolon"; "undefined_reference";
    "missing_header"; "segmentation_fault"; "null_pointer"; "array_bounds";
    "uninitialized"; "memory_leak"; "buffer_overflow"; "type_mismatch";
    "no_matching_function"; "ambiguous"; "redefinition"; "undeclared";
    "incomplete_type" ]%string.

(** A pattern that cannot tell the two cases of a letter apart: each of
    its character classes answers the same on a character and on its lower
    case.  The patterns compiled with [re.I] are of this kind, so that
    lower-casing the text first, as [classify_error] does, changes nothing. *)
Fixpoint case_blind (r : regex) : Prop :=
  match r with
  | Chr p => forall c, p (lower_char c) = p c
  | Eps => True
  | Seq r1 r2 => case_blind r1 /\ case_blind r2
  | Alt r1 r2 => case_blind r1 /\ case_blind r2
  | Star r1 => case_blind r1
  | WordB => True
  end.

(** A word as [split] produces it: not empty, without whitespace. *)
Definition word_ok (w : list ascii) : Prop :=
  w <> [] /\ forallb (fun c => negb (is_space c)) w = true.

(** The text [5:\ ] (a digit, a colon, a backslash). *)
Definition digit_colon_backslash : string :=
  ("5:" ++ String backslash "")%string.

(** The error messages of the failed compiles, in their original order. *)
Definition failed_messages (compiles : list compile_event) : list string :=
  flat_map (fun c => if failed c
                     then match c_error_message c with
                          | Some msg => [msg]
                          | None => []
                          end
                     else []) compiles.

(** The number of positions [i >= 1] at which a list of strings repeats
    its previous element. *)
Definition adjacent_equal_pairs (l : list string) : nat :=
  List.length
    (filter (fun i => String.eqb (nth i l EmptyString) (nth (i - 1) l EmptyString))
            (seq 1 (List.length l - 1))).

(** The recovery loop without indices: each failed compile is paired with
    the first later compile that [get('success', False)] accepts. *)
Fixpoint recovery_scan (fromisoformat : string -> option Z)
  (compiles : list compile_event) : result (list Q) :=
  match compiles with
  | [] => Ok []
  | compile_event :: rest =>
      if failed compile_event then
        match find (fun c => get_success c false) rest with
        | Some target =>
            bind (recovery_gap fromisoformat compile_event target)
              (fun recovery =>
            bind (recovery_scan fromisoformat rest) (fun later =>
            Ok (if Qltb recovery 300 then recovery :: later else later)))
        | None => recovery_scan fromisoformat rest
        end
      else recovery_scan fromisoformat rest
  end.

Definition same_for_compile (a b : compile_event) : Prop :=
  failed a = failed b /\
  c_warning_count a = c_warning_count b /\
  c_error_message a = c_error_message b.

(** The event [e] with ['success': value] stored in it. *)
Definition with_success (e : compile_event) (value : bool) : compile_event :=
  {| c_timestamp := c_timestamp e;
     c_success := Some value;
     c_warning_count := c_warning_count e;
     c_error_message := c_error_message e |}.

Definition undefined_reference_to_foo : string :=
  "undefined reference to `foo`".

(** A failed compile at time [t] with the message of the scenario. *)
Definition fail_at (t : Z) : compile_event :=
  {| c_timestamp := Some (TsDt t);
     c_success := Some false;
     c_warning_count := Some 0%Z;
     c_error_message := Some undefined_reference_to_foo |}.

(** A successful compile at time [t]. *)
Definition success_at (t : Z) : compile_event :=
  {| c_timestamp := Some (TsDt t);
     c_success := Some true;
     c_warning_count := Some 0%Z;
     c_error_message := None |}.

(** A compile at time [t] whose ['success'] key is absent. *)
Definition unmarked_at (t : Z) : compile_event :=
  {| c_timestamp := Some (TsDt t);
     c_success := None;
     c_warning_count := None;
     c_error_message := None |}.

Definition scenario (t0 t1 t2 : Z) : list compile_event :=
  [fail_at t0; fail_at t1; success_at t2].

(** A keystroke at time [t]. *)
Definition key_at (t : Z) : keystroke :=
  {| ks_timestamp := Some (TsDt t); ks_is_backspace := Some false |}.

(** A parser that accepts no string: the examples hold parsed datetimes. *)
Definition no_iso : string -> option Z := fun _ => None.

(** A loader without [feature_names.json]; its oracle answers with the
    vector it was given, in place of the probabilities. *)
Definition loader_without_names : model_loader :=
  {| feature_names := None;
     label_classes := ["Extreme"; "High"; "Low"; "Moderate"]%string;
     predict := fun vector => Ok ("Low"%string, 1, vector) |}.

(** The continuation of [predict_from_dict] after the oracle has answered. *)
Definition after_predict (self : model_loader) (answer : prediction)
  : result (string * Q * dict Q) :=
  let '(predicted_class, confidence, probabilities) := answer in
  bind (prob_dict_loop (label_classes self) 0 probabilities [])
    (fun prob_dict => Ok (predicted_class, confidence, prob_dict)).

(** A dictionary with the eight canonical names, in another order. *)
Definition sample_features : dict Q :=
  [ ("UNDO_REDO_ATTEMPT", 1); ("RED_METRIC", 5); ("TYPING_SPEED", 3 # 4);
    ("KEYSTROKE_RATE", 1 # 2); ("BACKSPACE_RATE", 1 # 10);
    ("COMPILE_ERROR", 2 # 3); ("FOCUS_SWITCHES", 2);
    ("IDLE_TO_ACTIVE_RATIO", 1 # 5) ]%string.

(** The cooldown is over for a detector at the time [now_check]: there was
    no intervention, or the last one is at least the cooldown old. *)
Definition ready (self : detector) (now_check : Z) : Prop :=
  forall last, last_intervention self = Some last ->
    (intervention_cooldown self * 1000000 <= now_check - last)%Z.

(** The decision taken at call [i] of a sequence. *)
Definition approved (self : detector) (calls : list call) (i : nat) : Prop :=
  nth_error (run self calls) i = Some true.

(** The state is not ahead of the clock: the recorded intervention, if any,
    is not later than the readings to come. *)
Definition not_ahead (self : detector) (calls : list call) : Prop :=
  forall last, last_intervention self = Some last ->
    forall r, In r (readings calls) -> (last <= r)%Z.

(** Three calls with level 'Extreme' and confidence 0.9: at 0 s, 10 s
    later, and 300 s after the first. *)
Definition extreme_call (t : Z) : call :=
  {| call_level := "Extreme";
     call_confidence := 9 # 10;
     call_now_check := t;
     call_now_stamp := t |}.

Definition three_calls : list call :=
  [extreme_call 0; extreme_call 10000000; extreme_call 300000000].

(** A loader whose [feature_names.json] lists seven names while the scaler
    was fitted on eight features: [verify_model] only prints the mismatch,
    and [scaler.transform] rejects every vector built from the names. *)
Definition mismatched_loader : model_loader :=
  {| feature_names :=
       Some [ "TYPING_SPEED"; "KEYSTROKE_RATE"; "BACKSPACE_RATE";
              "COMPILE_ERROR"; "RED_METRIC"; "FOCUS_SWITCHES";
              "IDLE_TO_ACTIVE_RATIO" ]%string;
     label_classes := ["Extreme"; "High"; "Low"; "Moderate"]%string;
     predict := fun vector =>
                  if (List.length vector =? 8)%nat
                  then Ok ("Low"%string, 1, [0; 0; 1; 0])
                  else Err ValueError |}.

(** A session without keystrokes and compiles. *)
Definition empty_session : session_data :=
  {| session_start := None;
     last_activity := None;
     keystrokes := Some [];
     compiles := Some [] |}.

(** The table entries after the first two ([syntax_error] and
    [missing_semicolon]). *)
Definition later_error_patterns : list (string * regex) :=
  skipn 2 error_patterns.

(** The hint that the table gives for a category name. *)
Definition hint_of (category : string) : string :=
  match lookup hints category with
  | Some hint => hint
  | None => default_hint
  end.

(** The last [n] elements of a list (all of it when it is shorter): what a
    [deque(maxlen=n)] holds after the elements were appended. *)
Definition latest {A : Type} (n : nat) (l : list A) : list A :=
  skipn (List.length l - n) l.






(** A baseline that the extractor can divide by and smooth: positive typing
    speed, backspace rate in [0, 1], a sample count that is not negative. *)
Definition baseline_ok (b : baseline) : Prop :=
  (0 < typing_speed b)%Q /\
  (0 <= backspace_rate b)%Q /\
  (backspace_rate b <= 1)%Q /\
  (0 <= samples b)%Z.

(** A loader with the canonical feature names whose oracle always answers
    'Extreme' with confidence 0.9. *)
Definition alarmed_loader : model_loader :=
  {| feature_names := Some get_feature_names;
     label_classes := ["Extreme"; "High"; "Low"; "Moderate"]%string;
     predict := fun _ => Ok ("Extreme"%string, 9 # 10, [9 # 10; 1 # 10; 0; 0]) |}.





(** [PipeServer.__init__] *)
Definition new_server : server :=
  {| the_detector := None; running := true |}.

(** What [datetime_parser] does to one value. *)
Definition parse_value {A : Type} (fromisoformat : string -> option Z)
  (v : json_value A) : json_value A :=
  match v with
  | JStr s =>
      match fromisoformat s with
      | Some t => JDatetime t
      | None => JStr s
      end
  | other => other
  end.

(** ** Lemmas and theorems *)


(** ** Comparisons on rationals *)

Lemma Qltb_lt (x y : Q) : Qltb x y = true <-> (x < y)%Q.
Proof.
  unfold Qltb. rewrite negb_true_iff. split; intro H.
  - apply Qnot_le_lt. intro Hle. apply Qle_bool_iff in Hle. congruence.
  - destruct (Qle_bool y x) eqn:E; [|reflexivity].
    apply Qle_bool_iff in E. exfalso. apply (Qlt_not_le _ _ H E).
Qed.

Lemma Qltb_ge (x y : Q) : Qltb x y = false <-> (y <= x)%Q.
Proof.
  unfold Qltb. rewrite negb_false_iff. apply Qle_bool_iff.
Qed.

Lemma Qgtb_gt (x y : Q) : Qgtb x y = true <-> (y < x)%Q.
Proof. unfold Qgtb. apply Qltb_lt. Qed.

(** ** Triggered-feature rule engine *)

Lemma get_triggered_features_fired (features : dict Q) :
  get_triggered_features features =
    match fired features with
    | [] => ["Normal Pattern"%string]
    | _ :: _ => fired features
    end.
Proof.
  unfold get_triggered_features, fired, threshold_checks, append_if.
  destruct (Qgtb (get features "RED_METRIC" 0) (25 # 10));
    destruct (Qltb (get features "TYPING_SPEED" 1) (65 # 100));
    destruct (Qgtb (get features "BACKSPACE_RATE" 0) (3 # 10));
    destruct (Qgtb (get features "KEYSTROKE_RATE" 0) (5 # 10));
    destruct (Qgtb (get features "COMPILE_ERROR" 0) (5 # 10));
    destruct (Qgtb (get features "FOCUS_SWITCHES" 0) 5);
    reflexivity.
Qed.

Lemma fired_not_normal (features : dict Q) :
  fired features <> ["Normal Pattern"%string].
Proof.
  unfold fired, threshold_checks.
  destruct (Qgtb (get features "RED_METRIC" 0) (25 # 10));
    destruct (Qltb (get features "TYPING_SPEED" 1) (65 # 100));
    destruct (Qgtb (get features "BACKSPACE_RATE" 0) (3 # 10));
    destruct (Qgtb (get features "KEYSTROKE_RATE" 0) (5 # 10));
    destruct (Qgtb (get features "COMPILE_ERROR" 0) (5 # 10));
    destruct (Qgtb (get features "FOCUS_SWITCHES" 0) 5);
    simpl; discriminate.
Qed.

Lemma fired_nil_iff (features : dict Q) :
  fired features = [] <->
  ~ (25 # 10 < get features "RED_METRIC" 0)%Q /\
  ~ (get features "TYPING_SPEED" 1 < 65 # 100)%Q /\
  ~ (3 # 10 < get features "BACKSPACE_RATE" 0)%Q /\
  ~ (5 # 10 < get features "KEYSTROKE_RATE" 0)%Q /\
  ~ (5 # 10 < get features "COMPILE_ERROR" 0)%Q /\
  ~ (5 < get features "FOCUS_SWITCHES" 0)%Q.
Proof.
  rewrite <- !Qltb_lt.
  unfold fired, threshold_checks, Qgtb.
  destruct (Qltb (25 # 10) (get features "RED_METRIC" 0));
    destruct (Qltb (get features "TYPING_SPEED" 1) (65 # 100));
    destruct (Qltb (3 # 10) (get features "BACKSPACE_RATE" 0));
    destruct (Qltb (5 # 10) (get features "KEYSTROKE_RATE" 0));
    destruct (Qltb (5 # 10) (get features "COMPILE_ERROR" 0));
    destruct (Qltb 5 (get features "FOCUS_SWITCHES" 0));
    simpl; split; intro H;
    repeat match goal with
           | H : _ /\ _ |- _ => destruct H
           | H : ~ (true = true) |- _ => exfalso; apply H; reflexivity
           end;
    try discriminate; try reflexivity;
    repeat split; intro; discriminate.
Qed.

(** C7.  For every feature dictionary the triggered-features list is not
    empty; it is the list of the reasons of the threshold checks that fire,
    in the fixed order, when at least one fires, and exactly
    ["Normal Pattern"] otherwise; and it equals ["Normal Pattern"] iff none
    of the six checks fires. *)
Theorem triggered_features_rule_engine (features : dict Q) :
  get_triggered_features features <> [] /\
  get_triggered_features features =
    match fired features with
    | [] => ["Normal Pattern"%string]
    | _ :: _ => fired features
    end /\
  (get_triggered_features features = ["Normal Pattern"%string] <->
   ~ (25 # 10 < get features "RED_METRIC" 0)%Q /\
   ~ (get features "TYPING_SPEED" 1 < 65 # 100)%Q /\
   ~ (3 # 10 < get features "BACKSPACE_RATE" 0)%Q /\
   ~ (5 # 10 < get features "KEYSTROKE_RATE" 0)%Q /\
   ~ (5 # 10 < get features "COMPILE_ERROR" 0)%Q /\
   ~ (5 < get features "FOCUS_SWITCHES" 0)%Q).
Proof.
  pose proof (get_triggered_features_fired features) as Heq.
  split; [|split].
  - rewrite Heq. destruct (fired features); discriminate.
  - exact Heq.
  - rewrite <- fired_nil_iff. rewrite Heq.
    destruct (fired features) eqn:E.
    + split; reflexivity || auto.
    + split; intro H; [|discriminate].
      exfalso. apply (fired_not_normal features). rewrite E. exact H.
Qed.

(** ** Error classifier *)

(** First match wins: the loop returns the category of the first entry
    whose pattern is found, and the default when no pattern is found. *)
Lemma classify_loop_first_match (table : list (string * regex))
  (m : list ascii) :
  (exists before c p after,
      table = before ++ (c, p) :: after /\
      Forall (fun e => search (snd e) m = false) before /\
      search p m = true /\
      classify_loop table m = c) \/
  (Forall (fun e => search (snd e) m = false) table /\
   classify_loop table m = "unknown_error"%string).
Proof.
  induction table as [|[c p] table IH]; simpl.
  - right. split; [constructor | reflexivity].
  - destruct (search p m) eqn:Hp.
    + left. exists [], c, p, table. repeat split; auto.
    + destruct IH as [(before & c' & p' & after & Ht & Hb & Hs & Hc) | [Hall Hc]].
      * left. exists ((c, p) :: before), c', p', after.
        subst table. repeat split; auto.
      * right. split; [constructor; auto | exact Hc].
Qed.

Lemma lower_char_idem (c : ascii) : lower_char (lower_char c) = lower_char c.
Proof. destruct c as [[] [] [] [] [] [] [] []]; reflexivity. Qed.

Lemma is_word_lower_char (c : ascii) : is_word (lower_char c) = is_word c.
Proof. destruct c as [[] [] [] [] [] [] [] []]; reflexivity. Qed.

Lemma is_newline_lower_char (c : ascii) :
  (code (lower_char c) =? 10)%nat = (code c =? 10)%nat.
Proof. destruct c as [[] [] [] [] [] [] [] []]; reflexivity. Qed.

Lemma is_word_opt_lower (c : option ascii) :
  is_word_opt (option_map lower_char c) = is_word_opt c.
Proof. destruct c; simpl; [apply is_word_lower_char | reflexivity]. Qed.

Lemma prev_after_lower (prev : option ascii) (s : list ascii) (n : nat) :
  prev_after (option_map lower_char prev) (lower s) n
  = option_map lower_char (prev_after prev s n).
Proof.
  destruct n; simpl; [reflexivity|].
  unfold lower. apply nth_error_map.
Qed.

Lemma skipn_lower (n : nat) (s : list ascii) :
  skipn n (lower s) = lower (skipn n s).
Proof. unfold lower. apply skipn_map. Qed.

Lemma flat_map_ext_all {A B : Type} (f g : A -> list B) (l : list A) :
  (forall a, f a = g a) -> flat_map f l = flat_map g l.
Proof.
  intro H. induction l as [|a l IH]; simpl; [reflexivity|].
  rewrite H, IH. reflexivity.
Qed.

Lemma star_ends_lower (step : option ascii -> list ascii -> list nat) :
  (forall prev s, step (option_map lower_char prev) (lower s) = step prev s) ->
  forall fuel prev s,
    star_ends step fuel (option_map lower_char prev) (lower s)
    = star_ends step fuel prev s.
Proof.
  intros Hstep fuel. induction fuel as [|fuel IH]; intros prev s; simpl.
  - reflexivity.
  - rewrite Hstep. f_equal. apply flat_map_ext_all. intros [|n]; [reflexivity|].
    rewrite prev_after_lower, skipn_lower, IH. reflexivity.
Qed.

Lemma ends_lower (r : regex) :
  case_blind r ->
  forall prev s,
    ends r (option_map lower_char prev) (lower s) = ends r prev s.
Proof.
  induction r as [p| |r1 IH1 r2 IH2|r1 IH1 r2 IH2|r1 IH1|]; simpl; intros Hcb prev s.
  - destruct s as [|c s]; simpl; [reflexivity|]. rewrite Hcb. reflexivity.
  - reflexivity.
  - destruct Hcb as [H1 H2]. rewrite (IH1 H1).
    apply flat_map_ext_all. intro n.
    rewrite prev_after_lower, skipn_lower, (IH2 H2). reflexivity.
  - destruct Hcb as [H1 H2]. rewrite (IH1 H1), (IH2 H2). reflexivity.
  - unfold lower at 1. rewrite length_map.
    apply star_ends_lower. exact (IH1 Hcb).
  - rewrite is_word_opt_lower.
    replace (hd_error (lower s)) with (option_map lower_char (hd_error s))
      by (destruct s; reflexivity).
    rewrite is_word_opt_lower. reflexivity.
Qed.

Lemma search_from_lower (r : regex) :
  case_blind r ->
  forall s prev,
    search_from r (option_map lower_char prev) (lower s) = search_from r prev s.
Proof.
  intros Hcb s. induction s as [|c s IH]; intro prev.
  - pose proof (ends_lower r Hcb prev []) as E.
    cbn [search_from lower map] in *. unfold match_at.
    rewrite E. reflexivity.
  - pose proof (ends_lower r Hcb prev (c :: s)) as E.
    cbn [search_from lower map] in *. unfold match_at.
    rewrite E.
    destruct (hd_error (ends r prev (c :: s))); [reflexivity|].
    apply (IH (Some c)).
Qed.

Lemma search_lower (r : regex) (s : list ascii) :
  case_blind r -> search r (lower s) = search r s.
Proof. intro H. apply (search_from_lower r H s None). Qed.

Lemma case_blind_lit_i_chars (s : list ascii) : case_blind (lit_i_chars s).
Proof.
  induction s as [|c s IH]; simpl; [exact I|].
  assert (Hc : case_blind (chr_i c))
    by (intro x; simpl; rewrite lower_char_idem; reflexivity).
  destruct s; [exact Hc | split; [exact Hc | exact IH]].
Qed.

Lemma case_blind_lit_i (s : string) : case_blind (lit_i s).
Proof. apply case_blind_lit_i_chars. Qed.

Lemma case_blind_then_later (a b : string) : case_blind (then_later a b).
Proof.
  unfold then_later. simpl. repeat split.
  - apply case_blind_lit_i.
  - intro c. unfold negb. rewrite is_newline_lower_char. reflexivity.
  - apply case_blind_lit_i.
Qed.

Lemma error_patterns_case_blind :
  Forall (fun e => case_blind (snd e)) error_patterns.
Proof.
  unfold error_patterns.
  repeat (apply Forall_cons; [cbn [snd alts case_blind];
            repeat match goal with |- _ /\ _ => split end;
            (apply case_blind_lit_i || apply case_blind_then_later)|]).
  apply Forall_nil.
Qed.

(** C5.  For every input text [classify_error] returns one category: the
    first one, in the declared order of the table, whose case-insensitive
    pattern is found in the text, and [unknown_error] when none is found;
    the result is always one of the sixteen categories or [unknown_error].
    The patterns are searched in the lower-cased text, which finds exactly
    what they find in the text itself. *)
Theorem classify_error_total_first_match (self : extractor) (error_msg : string) :
  let m := lower (list_ascii_of_string error_msg) in
  map fst error_patterns = categories /\
  (forall c p, In (c, p) error_patterns ->
     search p m = search p (list_ascii_of_string error_msg)) /\
  In (classify_error self error_msg) (categories ++ ["unknown_error"%string]) /\
  ((exists before c p after,
       error_patterns = before ++ (c, p) :: after /\
       Forall (fun e => search (snd e) m = false) before /\
       search p m = true /\
       classify_error self error_msg = c) \/
   (Forall (fun e => search (snd e) m = false) error_patterns /\
    classify_error self error_msg = "unknown_error"%string)).
Proof.
  intro m. split; [reflexivity|].
  split.
  { intros c p Hin. apply search_lower.
    pose proof error_patterns_case_blind as Hcb.
    rewrite Forall_forall in Hcb. apply (Hcb (c, p) Hin). }
  pose proof (classify_loop_first_match error_patterns m) as H.
  split; [|exact H].
  change categories with (map fst error_patterns).
  change (classify_error self error_msg) with (classify_loop error_patterns m).
  apply in_or_app.
  destruct H as [(before & c & p & after & Ht & _ & _ & Hc) | [_ Hc]].
  - left. rewrite Hc, Ht, map_app. apply in_or_app. right. left. reflexivity.
  - right. left. symmetry. exact Hc.
Qed.

(** ** Error normalizer *)

Lemma split_words_ok (s : list ascii) : Forall word_ok (split s).
Proof.
  induction s as [|c s IH]; simpl; [constructor|].
  destruct (is_space c) eqn:Hc; [exact IH|].
  assert (Hone : word_ok [c]).
  { split; [discriminate | simpl; rewrite Hc; reflexivity]. }
  destruct s as [|c' s']; [constructor; [exact Hone | constructor]|].
  destruct (is_space c') eqn:Hc'.
  - constructor; [exact Hone | exact IH].
  - destruct (split (c' :: s')) as [|w ws]; [constructor; [exact Hone | constructor]|].
    inversion IH as [|? ? [Hw1 Hw2] Hws]; subst.
    constructor; [|exact Hws].
    split; [discriminate | simpl; rewrite Hc, Hw2; reflexivity].
Qed.

(** A word followed by nothing or by whitespace is split off as it is. *)
Lemma split_word_app (w rest : list ascii) :
  word_ok w ->
  match rest with
  | [] => True
  | c :: _ => is_space c = true
  end ->
  split (w ++ rest) = w :: split rest.
Proof.
  intros [Hne Hns] Hrest. induction w as [|c w IH]; [congruence|].
  simpl in Hns. apply andb_true_iff in Hns. destruct Hns as [Hc Hw].
  apply negb_true_iff in Hc.
  destruct w as [|c2 w2].
  - simpl. rewrite Hc. destruct rest as [|r rest']; [reflexivity|].
    rewrite Hrest. reflexivity.
  - assert (IH' : split ((c2 :: w2) ++ rest) = (c2 :: w2) :: split rest)
      by (apply IH; [discriminate | exact Hw]).
    simpl in Hw. apply andb_true_iff in Hw. destruct Hw as [Hc2 _].
    apply negb_true_iff in Hc2.
    change ((c :: c2 :: w2) ++ rest) with (c :: (c2 :: w2) ++ rest).
    cbn [split]. rewrite Hc.
    change ((c2 :: w2) ++ rest) with (c2 :: w2 ++ rest) at 1.
    cbv iota. rewrite Hc2. rewrite IH'. reflexivity.
Qed.

Lemma split_join (ws : list (list ascii)) :
  Forall word_ok ws -> split (join [" "%char] ws) = ws.
Proof.
  induction ws as [|w ws IH]; intro H; [reflexivity|].
  inversion H as [|? ? Hw Hws]; subst.
  destruct ws as [|w' ws'].
  - simpl. rewrite <- (app_nil_r w) at 1.
    rewrite split_word_app; [reflexivity | exact Hw | exact I].
  - change (join [" "%char] (w :: w' :: ws'))
      with (w ++ " "%char :: join [" "%char] (w' :: ws')).
    rewrite split_word_app; [|exact Hw|reflexivity].
    f_equal. cbn [split]. change (is_space " ") with true. cbv iota.
    apply IH. exact Hws.
Qed.

(** Collapsing whitespace twice is collapsing it once. *)
Lemma collapse_whitespace_idem (s : list ascii) :
  collapse_whitespace (collapse_whitespace s) = collapse_whitespace s.
Proof.
  unfold collapse_whitespace. rewrite split_join; [reflexivity|].
  apply split_words_ok.
Qed.

(** C6, as stated, fails: normalizing [5:\ ] gives [number:\ ], in which the
    path pattern now finds [r:\ ]; normalizing again gives [numbepath]. *)
Lemma normalize_not_idempotent :
  let self := FeatureExtractor.init 100 in
  normalize_error_message self digit_colon_backslash
    = ("number:" ++ String backslash "")%string /\
  normalize_error_message self
    (normalize_error_message self digit_colon_backslash)
    = "numbepath"%string /\
  normalize_error_message self
    (normalize_error_message self digit_colon_backslash)
    <> normalize_error_message self digit_colon_backslash.
Proof.
  split; [vm_compute; reflexivity|].
  split; [vm_compute; reflexivity|].
  vm_compute. discriminate.
Qed.

(** C6, amended.  [normalize_error_message] is deterministic: its result
    depends on the text alone, whatever the state of the extractor after
    earlier calls.  It is idempotent on every text whose normalized form
    the seven substitutions leave unchanged. *)
Theorem normalize_deterministic_idempotent_on_fixpoints
  (self self' : extractor) (x : string) :
  normalize_error_message self x = normalize_error_message self' x /\
  (apply_patterns normalization_patterns
     (list_ascii_of_string (normalize_error_message self x))
   = list_ascii_of_string (normalize_error_message self x) ->
   normalize_error_message self' (normalize_error_message self x)
   = normalize_error_message self x).
Proof.
  split; [reflexivity|].
  intro Hfix. unfold normalize_error_message at 1.
  rewrite Hfix. unfold normalize_error_message.
  rewrite list_ascii_of_string_of_list_ascii.
  rewrite collapse_whitespace_idem. reflexivity.
Qed.

Lemma normalize_deterministic_idempotent_on_fixpoints_witness :
  normalize_error_message (FeatureExtractor.init 100)
    (normalize_error_message (FeatureExtractor.init 100)
       "main.c: line  12:   undefined reference to `foo`")
  = normalize_error_message (FeatureExtractor.init 100)
      "main.c: line  12:   undefined reference to `foo`".
Proof.
  apply (proj2 (normalize_deterministic_idempotent_on_fixpoints
                  (FeatureExtractor.init 100) (FeatureExtractor.init 100)
                  "main.c: line  12:   undefined reference to `foo`")).
  vm_compute. reflexivity.
Defined.

(** ** RED metric *)

Lemma collect_error_patterns_map (self : extractor)
  (compiles : list compile_event) :
  collect_error_patterns self compiles
  = map (normalize_error_message self) (failed_messages compiles).
Proof.
  induction compiles as [|c compiles IH]; simpl; [reflexivity|].
  destruct (failed c); [|exact IH].
  destruct (c_error_message c); simpl; [f_equal|]; exact IH.
Qed.

Lemma adjacent_nth {A B : Type} (f : A -> A -> B) (d : A) (l : list A) :
  adjacent f l
  = map (fun i => f (nth (i - 1) l d) (nth i l d)) (seq 1 (List.length l - 1)).
Proof.
  induction l as [|a l IH]; [reflexivity|].
  destruct l as [|b l']; [reflexivity|].
  change (adjacent f (a :: b :: l')) with (f a b :: adjacent f (b :: l')).
  rewrite IH.
  change (List.length (a :: b :: l') - 1)%nat with (S (List.length l')).
  change (List.length (b :: l') - 1)%nat with (List.length l' - 0)%nat.
  rewrite Nat.sub_0_r.
  cbn [seq map]. f_equal.
  rewrite <- (seq_shift (List.length l') 1), map_map.
  apply map_ext_in. intros i Hi. apply in_seq in Hi.
  destruct i as [|i]; [lia|].
  cbn [Nat.sub nth]. rewrite Nat.sub_0_r. reflexivity.
Qed.

Lemma adjacent_length {A B : Type} (f : A -> A -> B) (l : list A) :
  List.length (adjacent f l) = (List.length l - 1)%nat.
Proof.
  induction l as [|a l IH]; [reflexivity|].
  destruct l as [|b l']; [reflexivity|].
  change (adjacent f (a :: b :: l')) with (f a b :: adjacent f (b :: l')).
  cbn [List.length] in *. lia.
Qed.

Lemma filter_map_length {A B : Type} (p : B -> bool) (g : A -> B)
  (l : list A) :
  List.length (filter p (map g l))
  = List.length (filter (fun a => p (g a)) l).
Proof.
  induction l as [|a l IH]; simpl; [reflexivity|].
  destruct (p (g a)); simpl; congruence.
Qed.

Lemma count_repeats_pairs (l : list string) :
  count_repeats l = adjacent_equal_pairs l.
Proof.
  unfold count_repeats, adjacent_equal_pairs, count.
  rewrite (adjacent_nth _ EmptyString), filter_map_length. reflexivity.
Qed.

Lemma count_repeats_lt (l : list string) :
  (1 < List.length l)%nat -> (count_repeats l < List.length l)%nat.
Proof.
  intro H. unfold count_repeats, count.
  pose proof (filter_length_le (fun b : bool => b)
                (adjacent (fun previous current => String.eqb current previous) l)) as Hle.
  rewrite adjacent_length in Hle. lia.
Qed.

Lemma of_nat_nonneg (n : nat) : (0 <= of_nat n)%Q.
Proof.
  unfold of_nat. change 0%Q with (inject_Z 0). rewrite <- Zle_Qle. lia.
Qed.

Lemma of_nat_pos (n : nat) : (0 < n)%nat -> (0 < of_nat n)%Q.
Proof.
  intro H. unfold of_nat. change 0%Q with (inject_Z 0). rewrite <- Zlt_Qlt. lia.
Qed.

Lemma of_nat_le (m n : nat) : (m <= n)%nat -> (of_nat m <= of_nat n)%Q.
Proof. intro H. unfold of_nat. rewrite <- Zle_Qle. lia. Qed.

(** A count out of a larger positive total, scaled by ten, is in [0, 10]. *)
Lemma ratio_times_ten_bounds (r n : nat) :
  (r <= n)%nat -> (0 < n)%nat ->
  (0 <= of_nat r / of_nat n * 10 /\ of_nat r / of_nat n * 10 <= 10)%Q.
Proof.
  intros Hrn Hn.
  pose proof (of_nat_pos n Hn) as Hpos.
  assert (H0 : (0 <= of_nat r / of_nat n)%Q).
  { apply Qle_shift_div_l; [exact Hpos|]. rewrite Qmult_0_l. apply of_nat_nonneg. }
  assert (H1 : (of_nat r / of_nat n <= 1)%Q).
  { apply Qle_shift_div_r; [exact Hpos|]. rewrite Qmult_1_l. apply of_nat_le, Hrn. }
  split; lra.
Qed.

(** C3.  For every list of compile events, [red_metric] is the number of
    adjacent equal pairs among the normalized error messages of the failed
    compiles (in their order), divided by the number of these messages,
    times 10, and 0 when there are fewer than two of them; it lies in
    [0, 10]; and [repeated_error_ratio] is [red_metric / 10]. *)
Theorem red_metric_definition_and_bounds (self : extractor)
  (compiles : list compile_event) :
  let features := extract_compile_features self compiles in
  let patterns :=
    map (normalize_error_message self) (failed_messages compiles) in
  red_metric features
  = (if (2 <=? List.length patterns)%nat
     then of_nat (adjacent_equal_pairs patterns)
          / of_nat (List.length patterns) * 10
     else 0)%Q /\
  (0 <= red_metric features)%Q /\
  (red_metric features <= 10)%Q /\
  (repeated_error_ratio features == red_metric features / 10)%Q.
Proof.
  intros features patterns.
  assert (Hred : red_metric features
                 = (if (2 <=? List.length patterns)%nat
                    then of_nat (adjacent_equal_pairs patterns)
                         / of_nat (List.length patterns) * 10
                    else 0)%Q).
  { subst features patterns. unfold extract_compile_features.
    destruct compiles as [|c compiles]; [reflexivity|].
    cbn [red_metric].
    rewrite collect_error_patterns_map, count_repeats_pairs. reflexivity. }
  assert (Hratio : (repeated_error_ratio features == red_metric features / 10)%Q).
  { subst features. unfold extract_compile_features.
    destruct compiles as [|c compiles]; cbn [red_metric repeated_error_ratio];
      reflexivity. }
  split; [exact Hred|].
  rewrite Hred in Hratio. rewrite Hred. clear Hred.
  destruct (2 <=? List.length patterns)%nat eqn:Hlen.
  - apply Nat.leb_le in Hlen.
    rewrite <- count_repeats_pairs in *.
    pose proof (count_repeats_lt patterns ltac:(lia)) as Hlt.
    destruct (ratio_times_ten_bounds (count_repeats patterns)
                (List.length patterns) ltac:(lia) ltac:(lia)) as [Hlo Hhi].
    repeat split; assumption.
  - repeat split; solve [lra | exact Hratio].
Qed.

(** ** Recovery time *)

Lemma skipn_app_cons {A : Type} (pre : list A) (x : A) (rest : list A) :
  skipn (S (List.length pre)) (pre ++ x :: rest) = rest.
Proof. induction pre as [|a pre IH]; simpl; [reflexivity | exact IH]. Qed.

Lemma recovery_loop_scan (fromisoformat : string -> option Z)
  (todo : list compile_event) :
  forall (pre : list compile_event) (x : compile_event),
    recovery_loop fromisoformat (pre ++ todo ++ [x]) (List.length pre) todo
    = recovery_scan fromisoformat (todo ++ [x]).
Proof.
  induction todo as [|ev todo IH]; intros pre x.
  - simpl. destruct (failed x); reflexivity.
  - assert (Hrec :
      recovery_loop fromisoformat (pre ++ (ev :: todo) ++ [x])
        (S (List.length pre)) todo
      = recovery_scan fromisoformat (todo ++ [x])).
    { specialize (IH (pre ++ [ev]) x).
      rewrite <- app_assoc in IH. rewrite length_app in IH. simpl in IH.
      rewrite Nat.add_1_r in IH. exact IH. }
    cbn [recovery_loop recovery_scan app].
    change (pre ++ ev :: todo ++ [x]) with (pre ++ (ev :: todo) ++ [x]) in *.
    rewrite Hrec.
    change (pre ++ (ev :: todo) ++ [x]) with (pre ++ ev :: todo ++ [x]).
    rewrite skipn_app_cons. reflexivity.
Qed.

Lemma recovery_times_scan (fromisoformat : string -> option Z)
  (compiles : list compile_event) :
  recovery_times fromisoformat compiles
  = recovery_scan fromisoformat compiles.
Proof.
  unfold recovery_times.
  destruct compiles as [|c compiles]; [reflexivity|].
  assert (Hne : c :: compiles <> []) by discriminate.
  pose proof (app_removelast_last c Hne) as Hsplit.
  rewrite Hsplit at 1 3.
  apply (recovery_loop_scan fromisoformat (removelast (c :: compiles)) []).
Qed.

Lemma find_app_skip {A : Type} (p : A -> bool) (l1 : list A) (x : A)
  (l2 : list A) :
  p x = false -> find p (l1 ++ x :: l2) = find p (l1 ++ l2).
Proof.
  intro Hx. induction l1 as [|a l1 IH]; simpl.
  - rewrite Hx. reflexivity.
  - destruct (p a); [reflexivity | exact IH].
Qed.

(** A compile that neither failed nor counts as a success can be taken out
    of the list without changing the recovery times. *)
Lemma recovery_scan_skip (fromisoformat : string -> option Z)
  (e : compile_event) (before after : list compile_event) :
  failed e = false -> get_success e false = false ->
  recovery_scan fromisoformat (before ++ e :: after)
  = recovery_scan fromisoformat (before ++ after).
Proof.
  intros Hf Ht. induction before as [|c before IH]; simpl.
  - rewrite Hf. reflexivity.
  - rewrite IH, (find_app_skip _ before e after Ht). reflexivity.
Qed.

(** ** Compile features depend on [success] only through [failed] *)

Lemma extract_compile_features_ext (self : extractor)
  (l l' : list compile_event) :
  Forall2 same_for_compile l l' ->
  extract_compile_features self l = extract_compile_features self l'.
Proof.
  intro H.
  assert (Hlen : List.length l = List.length l')
    by (induction H; simpl; congruence).
  assert (Hcount : count failed l = count failed l').
  { clear - H. unfold count.
    induction H as [|a b l l' (Hf & _ & _) _ IH]; simpl; [reflexivity|].
    rewrite Hf. destruct (failed b); simpl; congruence. }
  assert (Hwarn : map get_warning_count l = map get_warning_count l').
  { clear - H.
    induction H as [|a b l l' (_ & Hw & _) _ IH]; simpl; [reflexivity|].
    unfold get_warning_count at 1 3. rewrite Hw, IH. reflexivity. }
  assert (Hpat : collect_error_patterns self l = collect_error_patterns self l').
  { clear - H.
    induction H as [|a b l l' (Hf & _ & Hm) _ IH]; simpl; [reflexivity|].
    rewrite Hf, Hm, IH. reflexivity. }
  assert (Hsev : collect_severities self l = collect_severities self l').
  { clear - H.
    induction H as [|a b l l' (Hf & _ & Hm) _ IH]; simpl; [reflexivity|].
    rewrite Hf, Hm, IH. reflexivity. }
  unfold extract_compile_features.
  destruct H as [|a b l l' _ _]; [reflexivity|].
  rewrite Hlen, Hcount, Hwarn, Hpat, Hsev. reflexivity.
Qed.

Lemma same_for_compile_refl (l : list compile_event) :
  Forall2 same_for_compile l l.
Proof. induction l; constructor; [repeat split | assumption]. Qed.

(** C10.  A compile event without a ['success'] key is not a failed
    compile: the compile features (error rate, RED metric, severity) are
    those of the same list with the event marked successful, and the event
    starts no recovery interval.  It is not a successful compile for the
    forward scan either, so it ends no recovery interval: the recovery
    times are those of the list without the event. *)
Theorem missing_success_is_asymmetric (fromisoformat : string -> option Z)
  (self : extractor) (e : compile_event)
  (before after : list compile_event) :
  c_success e = None ->
  failed e = false /\
  get_success e false = false /\
  extract_compile_features self (before ++ e :: after)
  = extract_compile_features self (before ++ with_success e true :: after) /\
  recovery_times fromisoformat (before ++ e :: after)
  = recovery_times fromisoformat (before ++ after).
Proof.
  intro Hnone.
  assert (Hf : failed e = false)
    by (unfold failed, get_success; rewrite Hnone; reflexivity).
  assert (Ht : get_success e false = false)
    by (unfold get_success; rewrite Hnone; reflexivity).
  repeat split; try assumption.
  - apply extract_compile_features_ext.
    apply Forall2_app; [apply same_for_compile_refl|].
    constructor; [|apply same_for_compile_refl].
    repeat split. exact Hf.
  - rewrite !recovery_times_scan. apply recovery_scan_skip; assumption.
Qed.

(** ** The scenario [fail, fail, success] *)

Lemma missing_success_is_asymmetric_witness :
  c_success (unmarked_at 10000000) = None /\
  extract_compile_features (FeatureExtractor.init 100)
    ([fail_at 0] ++ unmarked_at 10000000 :: [success_at 20000000])
  = extract_compile_features (FeatureExtractor.init 100)
      ([fail_at 0] ++ with_success (unmarked_at 10000000) true
                   :: [success_at 20000000]) /\
  recovery_times no_iso
    ([fail_at 0] ++ unmarked_at 10000000 :: [success_at 20000000])
  = recovery_times no_iso ([fail_at 0] ++ [success_at 20000000]).
Proof.
  split; [reflexivity|].
  apply (missing_success_is_asymmetric no_iso (FeatureExtractor.init 100)
           (unmarked_at 10000000) [fail_at 0] [success_at 20000000]).
  reflexivity.
Defined.

(** The asymmetry at work: after a failure, a compile without ['success']
    ends no recovery interval, while the same compile marked successful
    ends one (of 10 seconds). *)
Example unmarked_compile_ends_no_recovery :
  recovery_times no_iso [fail_at 0; unmarked_at 10000000] = Ok [] /\
  recovery_times no_iso [fail_at 0; with_success (unmarked_at 10000000) true]
  = Ok [total_seconds 0 10000000].
Proof. split; reflexivity. Qed.

(** The two failures of the scenario give the same normalized message
    twice. *)
Lemma scenario_error_patterns (self : extractor) (t0 t1 t2 : Z) :
  collect_error_patterns self (scenario t0 t1 t2)
  = [ normalize_error_message self undefined_reference_to_foo;
      normalize_error_message self undefined_reference_to_foo ].
Proof. reflexivity. Qed.

Lemma scenario_red_metric (self : extractor) (t0 t1 t2 : Z) :
  (red_metric (extract_compile_features self (scenario t0 t1 t2)) == 5)%Q.
Proof.
  unfold extract_compile_features, scenario. cbn [red_metric].
  fold (scenario t0 t1 t2). rewrite scenario_error_patterns.
  unfold count_repeats. cbn [adjacent]. rewrite String.eqb_refl.
  reflexivity.
Qed.

Lemma scenario_recovery_times (fromisoformat : string -> option Z)
  (t0 t1 t2 : Z) :
  recovery_times fromisoformat (scenario t0 t1 t2)
  = Ok (filter (fun recovery => Qltb recovery 300)
          [total_seconds t0 t2; total_seconds t1 t2]).
Proof.
  rewrite recovery_times_scan.
  cbn [scenario recovery_scan failed get_success fail_at success_at c_success
       negb find recovery_gap item_timestamp c_timestamp bind filter].
  destruct (Qltb (total_seconds t0 t2) 300);
    destruct (Qltb (total_seconds t1 t2) 300); reflexivity.
Qed.

(** What the behavioral features report as recovery time, once the
    keystroke timestamps are read. *)
Lemma behavioral_recovery_time (fromisoformat : string -> option Z)
  (self : extractor) (session : session_data)
  (raw : list timestamp) (timestamps : list Z) (recoveries : list Q) :
  (5 <= List.length (session_keystrokes session))%nat ->
  mapM (fun ks => item_timestamp (ks_timestamp ks)) (session_keystrokes session)
  = Ok raw ->
  to_datetimes fromisoformat raw = Ok timestamps ->
  recovery_times fromisoformat (session_compiles session) = Ok recoveries ->
  exists features,
    extract_behavioral_features fromisoformat self session = Ok features /\
    recovery_time features = recovery_minutes recoveries.
Proof.
  intros Hlen Hraw Hts Hrec. unfold extract_behavioral_features.
  destruct (List.length (session_keystrokes session) <? 5)%nat eqn:E.
  - apply Nat.ltb_lt in E. lia.
  - rewrite Hraw. cbn [bind]. rewrite Hts. cbn [bind]. rewrite Hrec. cbn [bind].
    eexists. split; reflexivity.
Qed.

(** C4, as stated, fails on its last part.  With the failures at 0 s and
    10 s and the success at 20 s (and five keystrokes, so that the
    behavioral features are computed), the gap from the first failure to
    the success is 20 s, under 300 s, that is 1/3 minute; the recovery time
    reported is 1/4 minute, the mean of 20 s and 10 s. *)
Lemma scenario_recovery_is_not_first_gap :
  let session :=
    {| session_start := None;
       last_activity := None;
       keystrokes :=
         Some (map key_at [0; 1000000; 2000000; 3000000; 4000000]%Z);
       compiles := Some (scenario 0 10000000 20000000) |} in
  exists features,
    extract_behavioral_features no_iso (FeatureExtractor.init 100) session
    = Ok features /\
    (total_seconds 0 20000000 < 300)%Q /\
    (recovery_time features == 1 # 4)%Q /\
    ~ (recovery_time features == total_seconds 0 20000000 / 60)%Q.
Proof.
  eexists. split; [vm_compute; reflexivity|].
  split; [reflexivity|]. split; [reflexivity|].
  intro H. vm_compute in H. discriminate H.
Qed.

(** C4, amended.  In the scenario the two failed compiles give two equal
    adjacent normalized messages and the RED metric is 5 (one repeat out of
    two patterns, times 10).  The recovery times are the gaps from each of
    the two failures to the success, each kept only when under 300 s; for a
    snapshot of at least five keystrokes with readable timestamps, the
    reported recovery time is their mean in minutes (0 when none is
    kept). *)
Theorem scenario_red_metric_and_recovery (fromisoformat : string -> option Z)
  (self : extractor) (session : session_data) (t0 t1 t2 : Z)
  (raw : list timestamp) (timestamps : list Z) :
  compiles session = Some (scenario t0 t1 t2) ->
  (5 <= List.length (session_keystrokes session))%nat ->
  mapM (fun ks => item_timestamp (ks_timestamp ks)) (session_keystrokes session)
  = Ok raw ->
  to_datetimes fromisoformat raw = Ok timestamps ->
  let kept :=
    filter (fun recovery => Qltb recovery 300)
      [total_seconds t0 t2; total_seconds t1 t2] in
  collect_error_patterns self (scenario t0 t1 t2)
  = [ normalize_error_message self undefined_reference_to_foo;
      normalize_error_message self undefined_reference_to_foo ] /\
  (red_metric (extract_compile_features self (scenario t0 t1 t2)) == 5)%Q /\
  recovery_times fromisoformat (scenario t0 t1 t2) = Ok kept /\
  exists features,
    extract_behavioral_features fromisoformat self session = Ok features /\
    recovery_time features = recovery_minutes kept.
Proof.
  intros Hcomp Hlen Hraw Hts kept.
  split; [apply scenario_error_patterns|].
  split; [apply scenario_red_metric|].
  split; [apply scenario_recovery_times|].
  apply (behavioral_recovery_time fromisoformat self session raw timestamps _ Hlen Hraw Hts).
  unfold session_compiles. rewrite Hcomp. apply scenario_recovery_times.
Qed.

Lemma scenario_red_metric_and_recovery_witness :
  exists features,
    extract_behavioral_features no_iso (FeatureExtractor.init 100)
      {| session_start := None;
         last_activity := None;
         keystrokes :=
           Some (map key_at [0; 1000000; 2000000; 3000000; 4000000]%Z);
         compiles := Some (scenario 0 10000000 20000000) |}
    = Ok features /\
    recovery_time features
    = recovery_minutes
        (filter (fun recovery => Qltb recovery 300)
           [total_seconds 0 20000000; total_seconds 10000000 20000000]).
Proof.
  apply (scenario_red_metric_and_recovery no_iso (FeatureExtractor.init 100)
           {| session_start := None;
              last_activity := None;
              keystrokes :=
                Some (map key_at [0; 1000000; 2000000; 3000000; 4000000]%Z);
              compiles := Some (scenario 0 10000000 20000000) |}
           0 10000000 20000000
           (map TsDt [0; 1000000; 2000000; 3000000; 4000000]%Z)
           [0; 1000000; 2000000; 3000000; 4000000]%Z).
  - reflexivity.
  - simpl. lia.
  - reflexivity.
  - reflexivity.
Defined.

(** ** Dictionaries *)

Lemma lookup_some_in_keys {V : Type} (d : dict V) (k : string) (v : V) :
  lookup d k = Some v -> In k (keys d).
Proof.
  induction d as [|[k' v'] d IH]; simpl; [discriminate|].
  destruct (String.eqb k k') eqn:E.
  - intros _. left. apply String.eqb_eq in E. congruence.
  - intro H. right. apply IH, H.
Qed.

Lemma in_keys_lookup {V : Type} (d : dict V) (k : string) :
  In k (keys d) -> exists v, lookup d k = Some v.
Proof.
  induction d as [|[k' v'] d IH]; simpl; [contradiction|].
  intros [Heq | Hin].
  - subst k'. rewrite String.eqb_refl. eexists. reflexivity.
  - destruct (String.eqb k k'); [eexists; reflexivity | apply IH, Hin].
Qed.

Lemma get_of_lookup {V : Type} (d : dict V) (k : string) (v default : V) :
  lookup d k = Some v -> get d k default = v.
Proof. unfold get. intro H. rewrite H. reflexivity. Qed.

(** ** The vector given to the classification oracle *)

(** C8, as stated, fails when no feature names were loaded: the vector is
    then the dictionary's values in insertion order, neither re-ordered by
    name nor completed with zeros, so that two dictionaries with the same
    content in a different order give different vectors. *)
Lemma feature_vector_without_names_keeps_dict_order :
  let d1 := [("RED_METRIC", 3); ("TYPING_SPEED", 1 # 2)]%string in
  let d2 := [("TYPING_SPEED", 1 # 2); ("RED_METRIC", 3)]%string in
  feature_vector loader_without_names d1 = [3; 1 # 2] /\
  feature_vector loader_without_names d2 = [1 # 2; 3] /\
  feature_vector loader_without_names d1
  <> map (fun name => get d1 name 0) get_feature_names /\
  predict_from_dict loader_without_names d1
  <> predict_from_dict loader_without_names d2.
Proof.
  repeat split; try reflexivity; vm_compute; discriminate.
Qed.

(** C8, amended.  When feature names were loaded (a non-empty list), the
    vector handed to the predictor holds, for each loaded name in the
    loaded order, the dictionary's value for that name, or 0 when the name
    is missing; it is the same for two dictionaries that give the same
    value (0 when missing) to each loaded name, whatever their key order
    and their other keys.  When no
    names were loaded the vector is the dictionary's values in insertion
    order. *)
Theorem predict_from_dict_vector (self : model_loader) (feature_dict : dict Q) :
  predict_from_dict self feature_dict
  = bind (predict self (feature_vector self feature_dict)) (after_predict self) /\
  (forall names,
     feature_names self = Some names -> names <> [] ->
     feature_vector self feature_dict
     = map (fun name => get feature_dict name 0) names /\
     forall other : dict Q,
       (forall name, In name names ->
          get other name 0 = get feature_dict name 0) ->
       feature_vector self other = feature_vector self feature_dict) /\
  (feature_names self = None \/ feature_names self = Some [] ->
   feature_vector self feature_dict = values feature_dict).
Proof.
  split; [|split].
  - unfold predict_from_dict, after_predict.
    destruct (predict self (feature_vector self feature_dict)) as [[[c conf] probs]|e];
      reflexivity.
  - intros names Hnames Hne. unfold feature_vector. rewrite Hnames.
    destruct names as [|name names]; [congruence|].
    split; [reflexivity|].
    intros other Hagree. apply map_ext_in. exact Hagree.
  - intros [H | H]; unfold feature_vector; rewrite H; reflexivity.
Qed.

Lemma predict_from_dict_vector_witness :
  let self :=
    {| feature_names := Some ["TYPING_SPEED"; "RED_METRIC"]%string;
       label_classes := ["Extreme"; "High"; "Low"; "Moderate"]%string;
       predict := fun vector => Ok ("Low"%string, 1, vector) |} in
  feature_vector self [("RED_METRIC", 3); ("EXTRA", 7)]%string = [0; 3] /\
  feature_vector self [("TYPING_SPEED", 0); ("RED_METRIC", 3)]%string
  = feature_vector self [("RED_METRIC", 3); ("EXTRA", 7)]%string.
Proof.
  intro self.
  destruct (proj1 (proj2 (predict_from_dict_vector self
                            [("RED_METRIC", 3); ("EXTRA", 7)]%string))
              ["TYPING_SPEED"; "RED_METRIC"]%string eq_refl
              ltac:(discriminate)) as [Hvec Hsame].
  split; [exact Hvec|].
  apply Hsame. intros name [H | [H | []]]; subst name; reflexivity.
Defined.

(** ** Feature-vector round trip *)

(** The round trip always succeeds and yields the eight canonical names, in
    order, each with the dictionary's value or 0. *)
Lemma round_trip_value (d : dict Q) :
  feature_vector_to_dict (dict_to_feature_vector d)
  = Ok (map (fun name => (name, get d name 0)) get_feature_names).
Proof. reflexivity. Qed.

Lemma lookup_map_names (f : string -> Q) (names : list string) (k : string) :
  In k names -> lookup (map (fun name => (name, f name)) names) k = Some (f k).
Proof.
  induction names as [|n names IH]; simpl; [contradiction|].
  intros [Heq | Hin].
  - subst n. rewrite String.eqb_refl. reflexivity.
  - destruct (String.eqb k n) eqn:E.
    + apply String.eqb_eq in E. subst n. reflexivity.
    + apply IH, Hin.
Qed.

Lemma get_feature_names_nodup : NoDup get_feature_names.
Proof.
  unfold get_feature_names.
  repeat (constructor; [simpl; intuition discriminate|]).
  constructor.
Qed.

(** [==] between the round trip and the dictionary, for any dictionary. *)
Lemma round_trip_eqb_iff (d : dict Q) :
  dict_eqb Qeq_bool
    (map (fun name => (name, get d name 0)) get_feature_names) d = true
  <-> List.length d = 8%nat /\ incl get_feature_names (keys d).
Proof.
  unfold dict_eqb. rewrite andb_true_iff, forallb_forall.
  rewrite length_map. change (List.length get_feature_names) with 8%nat.
  rewrite Nat.eqb_eq.
  split; intros [Hlen Hall]; (split; [congruence|]).
  - intros name Hin.
    specialize (Hall (name, get d name 0)
                  (in_map (fun name => (name, get d name 0)) _ _ Hin)).
    cbn [fst snd] in Hall.
    destruct (lookup d name) as [v|] eqn:E; [|discriminate].
    apply (lookup_some_in_keys d name v E).
  - intros [name v] Hin. apply in_map_iff in Hin.
    destruct Hin as (n & Heq & Hn). inversion Heq; subst. cbn [fst snd].
    destruct (in_keys_lookup d name (Hall name Hn)) as [v Hv].
    rewrite Hv, (get_of_lookup d name v 0 Hv).
    apply Qeq_bool_iff. reflexivity.
Qed.

(** C9, as stated, fails for a dictionary that has only some of the
    canonical names: the round trip adds the missing names with value 0.
    The empty dictionary comes back with eight entries, and a dictionary
    with the single key [RED_METRIC] with seven more. *)
Lemma round_trip_adds_missing_names :
  (exists d', feature_vector_to_dict (dict_to_feature_vector []) = Ok d' /\
              List.length d' = 8%nat /\
              dict_eqb Qeq_bool d' [] = false) /\
  (exists d', feature_vector_to_dict
                (dict_to_feature_vector [("RED_METRIC"%string, 3)]) = Ok d' /\
              dict_eqb Qeq_bool d' [("RED_METRIC"%string, 3)] = false).
Proof.
  split; eexists; (split; [reflexivity|]); repeat split; reflexivity.
Qed.

(** C9, amended.  For every dictionary whose keys are exactly the eight
    canonical feature names, the round trip
    [feature_vector_to_dict(dict_to_feature_vector(d))] succeeds and is
    equal ([==]) to [d].  For a dictionary whose keys are among the
    canonical names the round trip is equal to [d] only in that case:
    the missing names come back with value 0. *)
Theorem feature_vector_round_trip (d : dict Q) :
  wf d ->
  incl (keys d) get_feature_names ->
  exists d',
    feature_vector_to_dict (dict_to_feature_vector d) = Ok d' /\
    keys d' = get_feature_names /\
    (forall name, In name get_feature_names ->
       lookup d' name = Some (get d name 0)) /\
    (dict_eqb Qeq_bool d' d = true <-> incl get_feature_names (keys d)).
Proof.
  intros Hwf Hincl.
  exists (map (fun name => (name, get d name 0)) get_feature_names).
  split; [apply round_trip_value|].
  split; [unfold keys; rewrite map_map; apply map_id|].
  split; [intros name Hin; apply lookup_map_names; exact Hin|].
  rewrite round_trip_eqb_iff. split; [intros [_ H]; exact H|].
  intro Hall. split; [|exact Hall].
  assert (H1 : (List.length (keys d) <= 8)%nat)
    by exact (NoDup_incl_length Hwf Hincl).
  assert (H2 : (8 <= List.length (keys d))%nat)
    by exact (NoDup_incl_length get_feature_names_nodup Hall).
  unfold keys in H1, H2. rewrite length_map in H1, H2. lia.
Qed.

Lemma feature_vector_round_trip_witness :
  exists d',
    feature_vector_to_dict (dict_to_feature_vector sample_features) = Ok d' /\
    dict_eqb Qeq_bool d' sample_features = true.
Proof.
  assert (Hwf : wf sample_features).
  { unfold wf, sample_features, keys. cbn [map fst].
    repeat (constructor; [simpl; intuition discriminate|]). constructor. }
  assert (Hincl : incl (keys sample_features) get_feature_names).
  { intros k Hk. simpl in Hk. simpl.
    repeat (destruct Hk as [Hk | Hk]; [subst k; tauto|]). contradiction. }
  destruct (feature_vector_round_trip sample_features Hwf Hincl)
    as (d' & Hrt & _ & _ & Heq).
  exists d'. split; [exact Hrt|].
  apply Heq. intros k Hk. simpl in Hk. simpl.
  repeat (destruct Hk as [Hk | Hk]; [subst k; tauto|]). contradiction.
Defined.

(** ** Intervention decision *)

Lemma cooling_iff (last now cooldown : Z) :
  Qltb (total_seconds last now) (inject_Z cooldown) = true
  <-> (now - last < cooldown * 1000000)%Z.
Proof.
  rewrite Qltb_lt. unfold total_seconds, Qlt, Qdiv, Qmult, Qinv, inject_Z.
  simpl. lia.
Qed.

(** One call: the decision, and what it does to the detector. *)
Lemma should_intervene_step (self : detector) (anxiety_level : string)
  (confidence : Q) (now_check now_stamp : Z) :
  let result := should_intervene self anxiety_level confidence
                  now_check now_stamp in
  (fst result = true <->
     ready self now_check /\
     level_is_high anxiety_level = true /\
     (7 # 10 < confidence)%Q) /\
  (fst result = true -> snd result = with_last_intervention self now_stamp) /\
  (fst result = false -> snd result = self).
Proof.
  unfold should_intervene, ready.
  destruct (last_intervention self) as [last|] eqn:Hlast.
  - destruct (Qltb (total_seconds last now_check)
                (inject_Z (intervention_cooldown self))) eqn:Hcool.
    + apply cooling_iff in Hcool. cbn [fst snd].
      repeat split; try discriminate; try reflexivity.
      intros (Hready & _ & _). specialize (Hready last eq_refl). lia.
    + assert (Hold : (intervention_cooldown self * 1000000 <= now_check - last)%Z).
      { destruct (Z_lt_le_dec (now_check - last)
                    (intervention_cooldown self * 1000000)) as [Hlt|Hle];
          [|exact Hle].
        apply cooling_iff in Hlt. congruence. }
      destruct (level_is_high anxiety_level) eqn:Hlevel;
        destruct (Qgtb confidence (7 # 10)) eqn:Hconf; cbn [andb fst snd];
        repeat split; try discriminate; try reflexivity;
        try (intros (_ & H1 & H2); try discriminate;
             apply Qgtb_gt in H2; congruence).
      * intros last' Heq. inversion Heq; subst. exact Hold.
      * apply Qgtb_gt. exact Hconf.
  - destruct (level_is_high anxiety_level) eqn:Hlevel;
      destruct (Qgtb confidence (7 # 10)) eqn:Hconf; cbn [andb fst snd];
      repeat split; try discriminate; try reflexivity;
      try (intros (_ & H1 & H2); try discriminate;
           apply Qgtb_gt in H2; congruence).
    apply Qgtb_gt. exact Hconf.
Qed.

Lemma nondecreasing_tail (a : Z) (l : list Z) :
  nondecreasing (a :: l) -> nondecreasing l.
Proof. destruct l as [|b l]; simpl; [trivial | intros [_ H]; exact H]. Qed.

Lemma nondecreasing_head_le (l : list Z) :
  forall a, nondecreasing (a :: l) -> forall r, In r l -> (a <= r)%Z.
Proof.
  induction l as [|b l IH]; intros a H r Hin; [contradiction|].
  destruct H as [Hab Hrest]. destruct Hin as [Heq | Hin].
  - subst. exact Hab.
  - specialize (IH b Hrest r Hin). lia.
Qed.

Lemma check_before_stamp (calls : list call) :
  nondecreasing (readings calls) ->
  forall i c, nth_error calls i = Some c ->
    (call_now_check c <= call_now_stamp c)%Z.
Proof.
  induction calls as [|c0 calls IH]; intros Hmono i c Hi.
  - destruct i; discriminate.
  - destruct i as [|i].
    + inversion Hi; subst. cbn [readings flat_map app] in Hmono.
      apply (nondecreasing_head_le _ _ Hmono). left. reflexivity.
    + apply (IH (nondecreasing_tail _ _ (nondecreasing_tail _ _ Hmono)) i c Hi).
Qed.

Lemma readings_of_call (calls : list call) (i : nat) (c : call) :
  nth_error calls i = Some c ->
  In (call_now_check c) (readings calls) /\
  In (call_now_stamp c) (readings calls).
Proof.
  intro Hi. apply nth_error_In in Hi. unfold readings.
  split; apply in_flat_map; exists c; (split; [exact Hi | simpl; tauto]).
Qed.

Lemma run_cons (self : detector) (c : call) (calls : list call) :
  run self (c :: calls)
  = fst (should_intervene self (call_level c) (call_confidence c)
           (call_now_check c) (call_now_stamp c))
    :: run (snd (should_intervene self (call_level c) (call_confidence c)
                   (call_now_check c) (call_now_stamp c))) calls.
Proof.
  cbn [run].
  destruct (should_intervene self (call_level c) (call_confidence c)
              (call_now_check c) (call_now_stamp c)); reflexivity.
Qed.

Lemma run_decision (calls : list call) :
  forall self : detector,
    nondecreasing (readings calls) ->
    not_ahead self calls ->
    forall i c, nth_error calls i = Some c ->
      (approved self calls i <->
         ready self (call_now_check c) /\
         (forall j cj, (j < i)%nat -> nth_error calls j = Some cj ->
            approved self calls j ->
            (intervention_cooldown self * 1000000
             <= call_now_check c - call_now_stamp cj)%Z) /\
         level_is_high (call_level c) = true /\
         (7 # 10 < call_confidence c)%Q).
Proof.
  induction calls as [|c0 calls IH]; intros self Hmono Hahead i c Hi.
  - destruct i; discriminate.
  - unfold approved in *. rewrite run_cons.
    pose proof (should_intervene_step self (call_level c0)
                  (call_confidence c0) (call_now_check c0)
                  (call_now_stamp c0)) as Hstep.
    cbv zeta in Hstep.
    set (res := should_intervene self (call_level c0) (call_confidence c0)
                  (call_now_check c0) (call_now_stamp c0)) in *.
    destruct Hstep as (Hiff & Htrue & Hfalse).
    destruct i as [|i].
    + inversion Hi; subst c0. cbn [nth_error].
      split.
      * intro H. injection H as Hb. apply Hiff in Hb.
        destruct Hb as (Hr & Hl & Hc).
        repeat split; try assumption. intros j cj Hj. lia.
      * intros (Hr & _ & Hl & Hc). f_equal. apply Hiff. auto.
    + cbn [nth_error] in Hi |- *.
      assert (Hmono' : nondecreasing (readings calls))
        by exact (nondecreasing_tail _ _ (nondecreasing_tail _ _ Hmono)).
      assert (Hstamp : forall r, In r (readings calls) ->
                                 (call_now_stamp c0 <= r)%Z).
      { cbn [readings flat_map app] in Hmono.
        apply (nondecreasing_head_le _ _ (nondecreasing_tail _ _ Hmono)). }
      destruct (readings_of_call calls i c Hi) as [Hin_check _].
      destruct (fst res) eqn:Hb.
      * (* the first call was approved *)
        specialize (Htrue eq_refl).
        assert (Hahead' : not_ahead (snd res) calls).
        { rewrite Htrue. intros last Hlast r Hr. cbn in Hlast.
          inversion Hlast; subst. apply Hstamp, Hr. }
        rewrite (IH (snd res) Hmono' Hahead' i c Hi).
        rewrite Htrue. unfold ready. cbn [last_intervention intervention_cooldown
                                            with_last_intervention].
        split.
        -- intros (Hr & Hprev & Hl & Hc).
           specialize (Hr _ eq_refl).
           repeat split; try assumption.
           ++ intros last Hlast.
              assert (last <= call_now_stamp c0)%Z.
              { apply (Hahead last Hlast).
                cbn [readings flat_map app]. right. left. reflexivity. }
              lia.
           ++ intros j cj Hj Hcj Happ. destruct j as [|j].
              ** cbn [nth_error] in Hcj. inversion Hcj; subst. exact Hr.
              ** cbn [nth_error] in Hcj, Happ.
                 apply (Hprev j cj ltac:(lia) Hcj Happ).
        -- intros (Hr & Hprev & Hl & Hc).
           repeat split; try assumption.
           ++ intros last Hlast. inversion Hlast; subst.
              apply (Hprev 0%nat c0 ltac:(lia) eq_refl eq_refl).
           ++ intros j cj Hj Hcj Happ.
              apply (Hprev (S j) cj ltac:(lia) Hcj Happ).
      * (* the first call was not approved *)
        specialize (Hfalse eq_refl).
        assert (Hahead' : not_ahead (snd res) calls).
        { rewrite Hfalse. intros last Hlast r Hr.
          apply (Hahead last Hlast). cbn [readings flat_map app].
          right. right. exact Hr. }
        rewrite (IH (snd res) Hmono' Hahead' i c Hi).
        rewrite Hfalse.
        split.
        -- intros (Hr & Hprev & Hl & Hc).
           repeat split; try assumption.
           intros j cj Hj Hcj Happ. destruct j as [|j].
           ++ cbn [nth_error] in Happ. discriminate.
           ++ cbn [nth_error] in Hcj, Happ.
              apply (Hprev j cj ltac:(lia) Hcj Happ).
        -- intros (Hr & Hprev & Hl & Hc).
           repeat split; try assumption.
           intros j cj Hj Hcj Happ.
           apply (Hprev (S j) cj ltac:(lia) Hcj Happ).
Qed.

Lemma level_is_high_iff (anxiety_level : string) :
  level_is_high anxiety_level = true
  <-> anxiety_level = "High"%string \/ anxiety_level = "Extreme"%string.
Proof.
  unfold level_is_high. rewrite orb_true_iff, !String.eqb_eq. reflexivity.
Qed.

(** C1.  For every sequence of calls of [should_intervene] on a detector
    without a prior intervention, with a clock that does not go back: a
    call is approved iff no earlier approved call stamped its intervention
    less than the cooldown before this call's clock reading, the level is
    'High' or 'Extreme', and the confidence is above 0.7.  An approval
    records the current time in [last_intervention]; a refusal leaves the
    detector as it was.  Hence the stamps of any two approvals are at
    least the cooldown apart. *)
Theorem should_intervene_cooldown_gate (self : detector) (calls : list call) :
  last_intervention self = None ->
  nondecreasing (readings calls) ->
  (forall i c, nth_error calls i = Some c ->
     (approved self calls i <->
        (forall j cj, (j < i)%nat -> nth_error calls j = Some cj ->
           approved self calls j ->
           (intervention_cooldown self * 1000000
            <= call_now_check c - call_now_stamp cj)%Z) /\
        (call_level c = "High"%string \/ call_level c = "Extreme"%string) /\
        (7 # 10 < call_confidence c)%Q)) /\
  (forall i j ci cj, (i < j)%nat ->
     nth_error calls i = Some ci -> nth_error calls j = Some cj ->
     approved self calls i -> approved self calls j ->
     (intervention_cooldown self * 1000000
      <= call_now_stamp cj - call_now_stamp ci)%Z) /\
  (forall (s : detector) (anxiety_level : string) (confidence : Q)
          (now_check now_stamp : Z),
     let result := should_intervene s anxiety_level confidence
                     now_check now_stamp in
     (fst result = true ->
      snd result = with_last_intervention s now_stamp /\
      last_intervention (snd result) = Some now_stamp) /\
     (fst result = false -> snd result = s)).
Proof.
  intros Hfresh Hmono.
  assert (Hahead : not_ahead self calls)
    by (intros last Hlast; congruence).
  assert (Hready : forall t, ready self t)
    by (intros t last Hlast; congruence).
  assert (Hdecide : forall i c, nth_error calls i = Some c ->
     (approved self calls i <->
        (forall j cj, (j < i)%nat -> nth_error calls j = Some cj ->
           approved self calls j ->
           (intervention_cooldown self * 1000000
            <= call_now_check c - call_now_stamp cj)%Z) /\
        (call_level c = "High"%string \/ call_level c = "Extreme"%string) /\
        (7 # 10 < call_confidence c)%Q)).
  { intros i c Hi. rewrite (run_decision calls self Hmono Hahead i c Hi).
    rewrite level_is_high_iff. split.
    - intros (_ & H). exact H.
    - intro H. split; [apply Hready | exact H]. }
  split; [exact Hdecide|]. split.
  - intros i j ci cj Hij Hi Hj Hai Haj.
    apply (Hdecide j cj Hj) in Haj. destruct Haj as (Hprev & _).
    specialize (Hprev i ci Hij Hi Hai).
    pose proof (check_before_stamp calls Hmono j cj Hj). lia.
  - intros s anxiety_level confidence now_check now_stamp result.
    destruct (should_intervene_step s anxiety_level confidence
                now_check now_stamp) as (_ & Htrue & Hfalse).
    split; [|exact Hfalse].
    intro H. specialize (Htrue H). split; [exact Htrue|].
    fold result in Htrue. rewrite Htrue. reflexivity.
Qed.

(** The scenario of the specification: approved on a fresh service, refused
    10 seconds later; approved again once the cooldown has passed. *)
Example fresh_then_cooling :
  run (AnxietyDetector.init loader_without_names) three_calls
  = [true; false; true].
Proof. reflexivity. Qed.

Lemma should_intervene_cooldown_gate_witness :
  (300 * 1000000 <= 300000000 - 0)%Z.
Proof.
  assert (Hfresh : last_intervention
                     (AnxietyDetector.init loader_without_names) = None)
    by reflexivity.
  assert (Hmono : nondecreasing (readings three_calls))
    by (simpl; lia).
  exact (proj1 (proj2 (should_intervene_cooldown_gate
                         (AnxietyDetector.init loader_without_names)
                         three_calls Hfresh Hmono))
           0%nat 2%nat (extreme_call 0) (extreme_call 300000000)
           ltac:(lia) eq_refl eq_refl eq_refl eq_refl).
Defined.

(** ** Requests that abort *)

Lemma extract_all_features_baseline (fromisoformat : string -> option Z)
  (np_std : list Q -> Q) (self : extractor) (session : session_data) :
  the_baseline (snd (extract_all_features fromisoformat np_std self session))
  = the_baseline self.
Proof. reflexivity. Qed.

(** C2, as stated, fails for an oracle failure: the baseline is updated
    before the oracle is called, so a request that aborts in the oracle
    leaves the baseline updated ([samples] goes from 0 to 1, the typing
    speed stays 40, the backspace rate goes from 0.15 to 0.135). *)
Lemma oracle_failure_leaves_baseline_updated :
  let self := AnxietyDetector.init mismatched_loader in
  exists self',
    analyze_session no_iso (fun _ => 0) self empty_session 0 0 0
    = (Err ValueError, self') /\
    samples (the_baseline (feature_extractor self)) = 0%Z /\
    samples (the_baseline (feature_extractor self')) = 1%Z /\
    (backspace_rate (the_baseline (feature_extractor self)) == 15 # 100)%Q /\
    (backspace_rate (the_baseline (feature_extractor self')) == 135 # 1000)%Q /\
    the_baseline (feature_extractor self')
    <> the_baseline (feature_extractor self).
Proof.
  eexists. split; [vm_compute; reflexivity|].
  repeat split; try reflexivity.
  intro H. apply (f_equal samples) in H. vm_compute in H. discriminate H.
Qed.

(** C2, amended.  A request that aborts never changes [last_intervention]
    or the cooldown.  When it aborts while the timestamps are parsed the
    detector is unchanged, and when it aborts during feature extraction the
    baseline is unchanged: the baseline update runs only after a successful
    extraction.  When it aborts in the oracle, the extraction had succeeded
    and the baseline holds the complete update for the extracted features
    (three smoothed values, [samples] plus one). *)
Theorem aborted_request_state (fromisoformat : string -> option Z)
  (np_std : list Q -> Q) (self : detector) (session : session_data)
  (now_check now_stamp now_result : Z) (e : exn) (self' : detector) :
  analyze_session fromisoformat np_std self session
    now_check now_stamp now_result = (Err e, self') ->
  last_intervention self' = last_intervention self /\
  intervention_cooldown self' = intervention_cooldown self /\
  (parse_session fromisoformat session = Err e /\ self' = self
   \/
   (exists parsed,
      parse_session fromisoformat session = Ok parsed /\
      fst (extract_all_features fromisoformat np_std
             (feature_extractor self) parsed) = Err e /\
      the_baseline (feature_extractor self')
      = the_baseline (feature_extractor self))
   \/
   (exists parsed features,
      parse_session fromisoformat session = Ok parsed /\
      fst (extract_all_features fromisoformat np_std
             (feature_extractor self) parsed) = Ok features /\
      predict_from_dict (the_model_loader self) features = Err e /\
      the_baseline (feature_extractor self')
      = the_baseline
          (update_baseline (feature_extractor self) features (1 # 10)) /\
      samples (the_baseline (feature_extractor self'))
      = (samples (the_baseline (feature_extractor self)) + 1)%Z)).
Proof.
  unfold analyze_session.
  destruct (parse_session fromisoformat session) as [parsed|e0] eqn:Hparse.
  - pose proof (extract_all_features_baseline fromisoformat np_std
                  (feature_extractor self) parsed) as Hbase.
    destruct (extract_all_features fromisoformat np_std
                (feature_extractor self) parsed) as [[features|e1] fe] eqn:Hext.
    + cbn [snd] in Hbase.
      cbn [the_model_loader with_extractor].
      destruct (predict_from_dict (the_model_loader self) features)
        as [[[predicted_class confidence] probabilities]|e2] eqn:Hpred.
      * destruct (should_intervene _ predicted_class confidence
                    now_check now_stamp). discriminate.
      * intro H. inversion H; subst.
        split; [reflexivity|]. split; [reflexivity|].
        right. right. exists parsed, features. rewrite Hext. cbn [fst].
        split; [reflexivity|]. split; [reflexivity|]. split; [exact Hpred|].
        cbn [feature_extractor with_extractor].
        unfold update_baseline. cbn [the_baseline samples].
        rewrite Hbase. split; reflexivity.
    + cbn [snd] in Hbase. intro H. inversion H; subst.
      split; [reflexivity|]. split; [reflexivity|].
      right. left. exists parsed. rewrite Hext. cbn [fst].
      split; [reflexivity|]. split; [reflexivity|]. exact Hbase.
  - intro H. inversion H; subst.
    split; [reflexivity|]. split; [reflexivity|].
    left. split; reflexivity.
Qed.

Lemma aborted_request_state_witness :
  exists self',
    analyze_session no_iso (fun _ => 0)
      (AnxietyDetector.init mismatched_loader) empty_session 0 0 0
    = (Err ValueError, self') /\
    last_intervention self' = None.
Proof.
  eexists. split; [vm_compute; reflexivity|].
  exact (proj1 (aborted_request_state no_iso (fun _ => 0)
                  (AnxietyDetector.init mismatched_loader) empty_session
                  0 0 0 ValueError _ eq_refl)).
Defined.

(** ** Building a dictionary from two parallel sequences *)

Lemma set_fresh {V : Type} (d : dict V) (k : string) (v : V) :
  ~ In k (keys d) -> set d k v = d ++ [(k, v)].
Proof.
  induction d as [|[k' v'] d IH]; simpl; intro Hnot; [reflexivity|].
  destruct (String.eqb k k') eqn:E.
  - apply String.eqb_eq in E. exfalso. apply Hnot. left. congruence.
  - rewrite IH; [reflexivity|]. intro Hin. apply Hnot. right. exact Hin.
Qed.

Lemma nth_error_skipn_cons {A : Type} (l : list A) :
  forall i x, nth_error l i = Some x ->
    skipn i l = x :: skipn (S i) l /\ firstn (S i) l = firstn i l ++ [x].
Proof.
  induction l as [|a l IH]; intros i x Hi; [destruct i; discriminate|].
  destruct i as [|i].
  - inversion Hi; subst. split; reflexivity.
  - destruct (IH i x Hi) as [Hs Hf]. split.
    + exact Hs.
    + change (firstn (S (S i)) (a :: l)) with (a :: firstn (S i) l).
      rewrite Hf. reflexivity.
Qed.

Lemma nodup_not_in_firstn {A : Type} (l : list A) (i : nat) (x : A) :
  NoDup l -> nth_error l i = Some x -> ~ In x (firstn i l).
Proof.
  intros Hnd Hi Hin.
  destruct (nth_error_skipn_cons l i x Hi) as [Hs _].
  rewrite <- (firstn_skipn i l), Hs in Hnd.
  apply NoDup_remove_2 in Hnd. apply Hnd. apply in_or_app. left. exact Hin.
Qed.

(** The loop of [predict_from_dict] over distinct class names: the
    probabilities are paired with the names, in order. *)
Lemma prob_dict_loop_pairs (class_names : list string) :
  NoDup class_names ->
  forall probabilities i acc,
    keys acc = firstn i class_names ->
    (i + List.length probabilities <= List.length class_names)%nat ->
    prob_dict_loop class_names i probabilities acc
    = Ok (acc ++ combine (skipn i class_names) probabilities).
Proof.
  intros Hnd probabilities.
  induction probabilities as [|p ps IH]; intros i acc Hkeys Hlen.
  - simpl. destruct (skipn i class_names); rewrite app_nil_r; reflexivity.
  - cbn [prob_dict_loop].
    destruct (nth_error class_names i) as [name|] eqn:Hi.
    + destruct (nth_error_skipn_cons class_names i name Hi) as [Hs Hf].
      rewrite set_fresh
        by (rewrite Hkeys; apply (nodup_not_in_firstn class_names i name Hnd Hi)).
      rewrite IH.
      * rewrite Hs. cbn [combine]. rewrite <- app_assoc. reflexivity.
      * unfold keys in *. rewrite map_app, Hkeys, Hf. reflexivity.
      * cbn [List.length] in Hlen. lia.
    + apply nth_error_None in Hi. cbn [List.length] in Hlen. lia.
Qed.

(** With more probabilities than class names the loop runs off the end of
    the names. *)
Lemma prob_dict_loop_index_error (class_names : list string) :
  forall probabilities i acc,
    (i <= List.length class_names)%nat ->
    (List.length class_names < i + List.length probabilities)%nat ->
    prob_dict_loop class_names i probabilities acc = Err IndexError.
Proof.
  intros probabilities.
  induction probabilities as [|p ps IH]; intros i acc Hi Hlen.
  - cbn [List.length] in Hlen. lia.
  - cbn [prob_dict_loop].
    destruct (nth_error class_names i) as [name|] eqn:Hn; [|reflexivity].
    assert (i < List.length class_names)%nat
      by (apply nth_error_Some; congruence).
    apply IH; cbn [List.length] in *; lia.
Qed.

(** X1.  When the oracle answers, [predict_from_dict] passes the predicted
    class and the confidence on unchanged.  With distinct class labels and
    no more probabilities than labels, the probability dictionary pairs the
    labels with the probabilities in order; with more probabilities than
    labels the call raises [IndexError]. *)
Theorem predict_from_dict_probabilities (self : model_loader)
  (feature_dict : dict Q) (predicted_class : string) (confidence : Q)
  (probabilities : list Q) :
  predict self (feature_vector self feature_dict)
  = Ok (predicted_class, confidence, probabilities) ->
  NoDup (label_classes self) ->
  ((List.length probabilities <= List.length (label_classes self))%nat ->
   predict_from_dict self feature_dict
   = Ok (predicted_class, confidence,
         combine (label_classes self) probabilities)) /\
  ((List.length (label_classes self) < List.length probabilities)%nat ->
   predict_from_dict self feature_dict = Err IndexError).
Proof.
  intros Hpred Hnd. unfold predict_from_dict. rewrite Hpred. cbn [bind].
  split; intro Hlen.
  - rewrite (prob_dict_loop_pairs (label_classes self) Hnd probabilities 0 []);
      [reflexivity | reflexivity | simpl; lia].
  - rewrite prob_dict_loop_index_error; [reflexivity | lia | simpl; lia].
Qed.

Lemma predict_from_dict_probabilities_witness :
  predict_from_dict loader_without_names [("A"%string, 1); ("B"%string, 0)]
  = Ok ("Low"%string, 1,
        [("Extreme"%string, 1); ("High"%string, 0)]).
Proof.
  assert (Hnd : NoDup (label_classes loader_without_names)).
  { simpl. repeat (constructor; [simpl; intuition discriminate|]). constructor. }
  apply (proj1 (predict_from_dict_probabilities loader_without_names
                  [("A"%string, 1); ("B"%string, 0)] "Low"%string 1 [1; 0]
                  eq_refl Hnd)).
  simpl. lia.
Defined.

(** X2.  [feature_vector_to_dict] pairs a vector of at most eight values
    with the first canonical names, in order, and raises [IndexError] on a
    longer vector.  Converting the dictionary back gives the vector again,
    completed with zeros up to eight values: a vector of exactly eight
    values makes the round trip unchanged. *)
Theorem feature_vector_to_dict_edges (vector : list Q) :
  ((List.length vector <= 8)%nat ->
   feature_vector_to_dict vector = Ok (combine get_feature_names vector) /\
   dict_to_feature_vector (combine get_feature_names vector)
   = vector ++ repeat 0%Q (8 - List.length vector)) /\
  ((8 < List.length vector)%nat ->
   feature_vector_to_dict vector = Err IndexError).
Proof.
  split; intro Hlen.
  - do 9 (destruct vector as [|? vector]; [split; reflexivity|]).
    cbn [List.length] in Hlen. lia.
  - do 9 (destruct vector as [|? vector]; [cbn [List.length] in Hlen; lia|]).
    reflexivity.
Qed.

Lemma feature_vector_to_dict_edges_witness :
  feature_vector_to_dict [1; 2; 3; 4; 5; 6; 7; 8]
  = Ok (combine get_feature_names [1; 2; 3; 4; 5; 6; 7; 8]) /\
  dict_to_feature_vector (combine get_feature_names [1; 2; 3; 4; 5; 6; 7; 8])
  = [1; 2; 3; 4; 5; 6; 7; 8] ++ repeat 0%Q 0.
Proof.
  apply (proj1 (feature_vector_to_dict_edges [1; 2; 3; 4; 5; 6; 7; 8])).
  simpl. lia.
Defined.

(** ** Hints *)

Lemma prefix_iff (key s : string) :
  String.prefix key s = true <-> exists post, s = (key ++ post)%string.
Proof.
  revert s. induction key as [|c key IH]; intro s; simpl.
  - split; [intros _; exists s; reflexivity | destruct s; reflexivity].
  - destruct s as [|c' s].
    + split; [discriminate | intros [post H]; discriminate].
    + simpl. destruct (Ascii.ascii_dec c c') as [Heq | Hne].
      * subst c'. rewrite IH. split; intros [post H]; exists post.
        -- simpl. congruence.
        -- simpl in H. congruence.
      * split; [discriminate|]. intros [post H]. simpl in H. congruence.
Qed.

(** [contains] is the substring test. *)
Lemma contains_iff (s key : string) :
  contains s key = true
  <-> exists pre post, s = (pre ++ key ++ post)%string.
Proof.
  induction s as [|c s IH].
  - cbn [contains]. destruct (String.prefix key "") eqn:E.
    + apply prefix_iff in E. destruct E as [post E].
      split; [intros _; exists EmptyString, post; exact E | reflexivity].
    + split; [discriminate|]. intros (pre & post & H).
      destruct pre; [|discriminate].
      assert (String.prefix key "" = true)
        by (apply prefix_iff; exists post; exact H).
      congruence.
  - cbn [contains]. destruct (String.prefix key (String c s)) eqn:E.
    + apply prefix_iff in E. destruct E as [post E].
      split; [intros _; exists EmptyString, post; exact E | reflexivity].
    + rewrite IH. split.
      * intros (pre & post & H). exists (String c pre), post.
        simpl. congruence.
      * intros (pre & post & H). destruct pre as [|c' pre].
        -- assert (String.prefix key (String c s) = true)
             by (apply prefix_iff; exists post; exact H).
           congruence.
        -- exists pre, post. simpl in H. congruence.
Qed.

Lemma hint_loop_first_match (table : list (string * string)) (t : string) :
  (exists before key hint after,
      table = before ++ (key, hint) :: after /\
      Forall (fun e => contains t (fst e) = false) before /\
      contains t key = true /\
      hint_loop table t = hint) \/
  (Forall (fun e => contains t (fst e) = false) table /\
   hint_loop table t = default_hint).
Proof.
  induction table as [|[key hint] table IH]; simpl.
  - right. split; [constructor | reflexivity].
  - destruct (contains t key) eqn:Hk.
    + left. exists [], key, hint, table. repeat split; auto.
    + destruct IH as [(before & k & h & after & Ht & Hb & Hc & Hr) | [Hall Hr]].
      * left. exists ((key, hint) :: before), k, h, after.
        subst table. repeat split; auto.
      * right. split; [constructor; auto | exact Hr].
Qed.

(** X3.  [get_error_hint] returns the hint of the first key of the table,
    in the declared order, that occurs in the lower-cased error type
    (anywhere in it), and the generic message when no key occurs. *)
Theorem get_error_hint_first_match (self : detector) (error_type : string) :
  let t := lower_string error_type in
  (exists before key hint after,
      hints = before ++ (key, hint) :: after /\
      Forall (fun e => forall pre post,
                t <> (pre ++ fst e ++ post)%string) before /\
      (exists pre post, t = (pre ++ key ++ post)%string) /\
      get_error_hint self error_type = hint) \/
  (Forall (fun e => forall pre post,
             t <> (pre ++ fst e ++ post)%string) hints /\
   get_error_hint self error_type = default_hint).
Proof.
  intro t.
  assert (Hno : forall l : list (string * string),
             Forall (fun e => contains t (fst e) = false) l ->
             Forall (fun e => forall pre post,
                       t <> (pre ++ fst e ++ post)%string) l).
  { intros l Hl. eapply Forall_impl; [|exact Hl].
    intros e He pre post Heq.
    assert (contains t (fst e) = true)
      by (apply contains_iff; exists pre, post; exact Heq).
    congruence. }
  destruct (hint_loop_first_match hints t)
    as [(before & key & hint & after & Ht & Hb & Hc & Hr) | [Hall Hr]].
  - left. exists before, key, hint, after.
    repeat split; auto. apply contains_iff. exact Hc.
  - right. split; [apply Hno; exact Hall | exact Hr].
Qed.

Lemma classify_loop_in (table : list (string * regex)) (m : list ascii) :
  In (classify_loop table m) (map fst table ++ ["unknown_error"%string]).
Proof.
  induction table as [|[c p] table IH]; simpl; [left; reflexivity|].
  destruct (search p m); [left; reflexivity | right; exact IH].
Qed.

(** X4.  The hint for a classified error is the hint of its own category:
    no category name is shadowed by an earlier key of the hint table, and
    [unknown_error] gets the generic message. *)
Theorem hint_of_classified_error (self : detector) (fe : extractor)
  (error_msg : string) :
  get_error_hint self (classify_error fe error_msg)
  = hint_of (classify_error fe error_msg) /\
  (classify_error fe error_msg = "unknown_error"%string ->
   get_error_hint self (classify_error fe error_msg) = default_hint) /\
  (classify_error fe error_msg <> "unknown_error"%string ->
   get_error_hint self (classify_error fe error_msg) <> default_hint).
Proof.
  pose proof (classify_loop_in error_patterns
                (lower (list_ascii_of_string error_msg))) as Hin.
  change (classify_loop error_patterns (lower (list_ascii_of_string error_msg)))
    with (classify_error fe error_msg) in Hin.
  cbn [error_patterns map fst app] in Hin.
  repeat (destruct Hin as [Hin | Hin];
          [rewrite <- Hin; split; [reflexivity|];
           split; [try discriminate; reflexivity|];
           try (intro H; exfalso; apply H; reflexivity);
           intros _; vm_compute; discriminate|]).
  contradiction.
Qed.

Lemma hint_of_classified_error_witness :
  get_error_hint (AnxietyDetector.init loader_without_names)
    (classify_error (FeatureExtractor.init 100) "no idea what went wrong")
  = default_hint.
Proof.
  apply (proj1 (proj2 (hint_of_classified_error
                         (AnxietyDetector.init loader_without_names)
                         (FeatureExtractor.init 100)
                         "no idea what went wrong"))).
  vm_compute. reflexivity.
Defined.

(** ** What decides [missing_semicolon] *)

Lemma hd_error_app_none {A : Type} (l1 l2 : list A) :
  hd_error (l1 ++ l2) = None <-> hd_error l1 = None /\ hd_error l2 = None.
Proof.
  destruct l1; simpl; [tauto|]. split; [discriminate | intros [H _]; discriminate].
Qed.

Lemma search_from_alt (r1 r2 : regex) (s : list ascii) :
  forall prev,
    search_from (Alt r1 r2) prev s
    = search_from r1 prev s || search_from r2 prev s.
Proof.
  induction s as [|c s IH]; intro prev; cbn [search_from];
    unfold match_at; cbn [ends];
    destruct (hd_error (ends r1 prev _)) eqn:E1;
    destruct (hd_error (ends r2 prev _)) eqn:E2;
    destruct (hd_error (ends r1 prev _ ++ ends r2 prev _)) eqn:E;
    try reflexivity;
    try (apply hd_error_app_none in E; destruct E; congruence);
    try (rewrite orb_true_r; reflexivity);
    try (exfalso;
         assert (hd_error (ends r1 prev [] ++ ends r2 prev []) = None)
           by (apply hd_error_app_none; split; assumption);
         congruence);
    try (exfalso;
         assert (hd_error (ends r1 prev (c :: s) ++ ends r2 prev (c :: s)) = None)
           by (apply hd_error_app_none; split; assumption);
         congruence).
Qed.

Lemma search_alt (r1 r2 : regex) (s : list ascii) :
  search (Alt r1 r2) s = search r1 s || search r2 s.
Proof. apply search_from_alt. Qed.

Lemma match_at_seq_none (r1 r2 : regex) (prev : option ascii)
  (s : list ascii) :
  match_at r1 prev s = None -> match_at (Seq r1 r2) prev s = None.
Proof.
  unfold match_at. cbn [ends].
  destruct (ends r1 prev s); [reflexivity | discriminate].
Qed.

(** A sequence is found nowhere when its first part is found nowhere. *)
Lemma search_from_seq (r1 r2 : regex) (s : list ascii) :
  forall prev,
    search_from r1 prev s = false -> search_from (Seq r1 r2) prev s = false.
Proof.
  induction s as [|c s IH]; intro prev; cbn [search_from];
    destruct (match_at r1 prev _) eqn:E1; try discriminate;
    rewrite (match_at_seq_none r1 r2 _ _ E1); [reflexivity | apply IH].
Qed.

Lemma classify_loop_cons (c : string) (p : regex)
  (table : list (string * regex)) (m : list ascii) :
  classify_loop ((c, p) :: table) m
  = if search p m then c else classify_loop table m.
Proof. reflexivity. Qed.

(** X5.  A message is classified [missing_semicolon] exactly when none of
    "syntax error", "expected", "unexpected" occurs in it and "missing" is
    followed by ";" on the same line.  The alternative "expected.*;" of the
    [missing_semicolon] pattern never decides: a message with "expected" is
    a [syntax_error]. *)
Theorem missing_semicolon_needs_missing (self : extractor) (error_msg : string) :
  let m := lower (list_ascii_of_string error_msg) in
  (classify_error self error_msg = "missing_semicolon"%string <->
   search (lit_i "syntax error") m = false /\
   search (lit_i "expected") m = false /\
   search (lit_i "unexpected") m = false /\
   search (then_later "missing" ";") m = true) /\
  (search (lit_i "expected") m = true ->
   classify_error self error_msg = "syntax_error"%string).
Proof.
  intro m. unfold classify_error. fold m.
  change error_patterns with
    (("syntax_error"%string,
      alts [lit_i "syntax error"; lit_i "expected"; lit_i "unexpected"])
     :: ("missing_semicolon"%string,
         alts [then_later "expected" ";"; then_later "missing" ";"])
     :: later_error_patterns).
  rewrite !classify_loop_cons. cbn [alts]. rewrite !search_alt.
  pose proof (search_from_seq (lit_i "expected")
                (seqs [Star dot; lit_i ";"]) m None) as Hshadow.
  change (search_from (Seq (lit_i "expected") (seqs [Star dot; lit_i ";"])) None m)
    with (search (then_later "expected" ";") m) in Hshadow.
  change (search_from (lit_i "expected") None m)
    with (search (lit_i "expected") m) in Hshadow.
  pose proof (classify_loop_in later_error_patterns m) as Hlater.
  destruct (search (lit_i "syntax error") m);
    destruct (search (lit_i "expected") m);
    destruct (search (lit_i "unexpected") m);
    destruct (search (then_later "missing" ";") m);
    try rewrite (Hshadow eq_refl);
    destruct (search (then_later "expected" ";") m);
    cbn [orb]; (split; [split|]); try discriminate; try reflexivity;
    try (intros (H1 & H2 & H3 & H4); discriminate);
    try (intros _; repeat split; reflexivity).
  all: intro Heq; exfalso; rewrite Heq in Hlater;
    cbn [later_error_patterns skipn error_patterns map fst app] in Hlater;
    repeat (destruct Hlater as [Hlater | Hlater]; [discriminate|]);
    contradiction.
Qed.

Lemma missing_semicolon_needs_missing_witness :
  classify_error (FeatureExtractor.init 100) "Expected ';' before '}' token"
  = "syntax_error"%string.
Proof.
  apply (proj2 (missing_semicolon_needs_missing (FeatureExtractor.init 100)
                  "Expected ';' before '}' token")).
  vm_compute. reflexivity.
Defined.

(** ** Ranges of the compile features *)

Lemma of_nat_S (n : nat) : (of_nat (S n) == of_nat n + 1)%Q.
Proof.
  unfold of_nat. rewrite Nat2Z.inj_succ. unfold Z.succ.
  rewrite inject_Z_plus. reflexivity.
Qed.

Lemma sum_bounds (a b : Q) (l : list Q) :
  Forall (fun x => a <= x /\ x <= b)%Q l ->
  (a * of_nat (List.length l) <= sum l /\
   sum l <= b * of_nat (List.length l))%Q.
Proof.
  induction 1 as [|x l [Hax Hxb] _ [IHa IHb]].
  - cbn [List.length]. unfold sum. cbn [fold_right].
    change (of_nat 0) with 0%Q. split; lra.
  - cbn [List.length]. unfold sum in *. cbn [fold_right].
    rewrite of_nat_S, !Qmult_plus_distr_r, !Qmult_1_r. split; lra.
Qed.

(** The mean of a non-empty list lies between its bounds. *)
Lemma mean_bounds (a b : Q) (l : list Q) :
  l <> [] ->
  Forall (fun x => a <= x /\ x <= b)%Q l ->
  (a <= mean l /\ mean l <= b)%Q.
Proof.
  intros Hne Hall. destruct (sum_bounds a b l Hall) as [Hlo Hhi].
  assert (Hpos : (0 < of_nat (List.length l))%Q).
  { apply of_nat_pos. destruct l; [congruence | simpl; lia]. }
  unfold mean. split.
  - apply Qle_shift_div_l; assumption.
  - apply Qle_shift_div_r; assumption.
Qed.




(** X7.  The compile error rate lies in [0, 1], and the RED metric stays
    strictly below 10 (a list of n patterns has at most n - 1 repeats), so
    that [repeated_error_ratio] stays strictly below 1. *)
Theorem compile_rates_range (self : extractor)
  (compiles : list compile_event) :
  let features := extract_compile_features self compiles in
  (0 <= compile_error_rate features)%Q /\
  (compile_error_rate features <= 1)%Q /\
  (red_metric features < 10)%Q /\
  (repeated_error_ratio features < 1)%Q.
Proof.
  intro features. subst features. unfold extract_compile_features.
  destruct compiles as [|c compiles];
    [repeat split; try reflexivity; discriminate|].
  cbn [compile_error_rate red_metric repeated_error_ratio].
  assert (Hrate : (0 <= of_nat (count failed (c :: compiles))
                          / of_nat (List.length (c :: compiles))
                   <= 1)%Q).
  { assert (Hpos : (0 < of_nat (List.length (c :: compiles)))%Q)
      by (apply of_nat_pos; simpl; lia).
    split.
    - apply Qle_shift_div_l; [exact Hpos|]. rewrite Qmult_0_l.
      apply of_nat_nonneg.
    - apply Qle_shift_div_r; [exact Hpos|]. rewrite Qmult_1_l.
      apply of_nat_le. apply filter_length_le. }
  assert (Hred : ((if (1 <? List.length (collect_error_patterns self (c :: compiles)))%nat
                   then of_nat (count_repeats (collect_error_patterns self (c :: compiles)))
                        / of_nat (List.length (collect_error_patterns self (c :: compiles)))
                        * 10
                   else 0) < 10)%Q).
  { destruct (1 <? List.length (collect_error_patterns self (c :: compiles)))%nat
      eqn:Hlen; [|reflexivity].
    apply Nat.ltb_lt in Hlen.
    pose proof (count_repeats_lt _ Hlen) as Hlt.
    assert (Hpos : (0 < of_nat (List.length
                       (collect_error_patterns self (c :: compiles))))%Q)
      by (apply of_nat_pos; lia).
    assert (Hq : (of_nat (count_repeats (collect_error_patterns self (c :: compiles)))
                  / of_nat (List.length (collect_error_patterns self (c :: compiles)))
                  < 1)%Q).
    { apply Qlt_shift_div_r; [exact Hpos|]. rewrite Qmult_1_l.
      unfold of_nat. rewrite <- Zlt_Qlt. lia. }
    lra. }
  destruct Hrate as [H0 H1].
  repeat split; try assumption.
  apply Qlt_shift_div_r; [reflexivity|]. rewrite Qmult_1_l. exact Hred.
Qed.

(** ** Ranges of the typing features *)

Lemma ratio_unit (r n : nat) :
  (r <= n)%nat -> (0 < n)%nat ->
  (0 <= of_nat r / of_nat n /\ of_nat r / of_nat n <= 1)%Q.
Proof.
  intros Hrn Hn. pose proof (of_nat_pos n Hn) as Hpos. split.
  - apply Qle_shift_div_l; [exact Hpos|]. rewrite Qmult_0_l. apply of_nat_nonneg.
  - apply Qle_shift_div_r; [exact Hpos|]. rewrite Qmult_1_l. apply of_nat_le, Hrn.
Qed.

Lemma Forall_filter_true {A : Type} (p : A -> bool) (l : list A) :
  Forall (fun x => p x = true) (filter p l).
Proof.
  apply Forall_forall. intros x Hx. apply filter_In in Hx. tauto.
Qed.

Lemma Forall_insert_sorted (P : Q -> Prop) (x : Q) (l : list Q) :
  P x -> Forall P l -> Forall P (insert_sorted x l).
Proof.
  intros Hx Hl. induction Hl as [|y l Hy Hl IH]; simpl.
  - constructor; [exact Hx | constructor].
  - destruct (Qle_bool x y).
    + constructor; [exact Hx | constructor; assumption].
    + constructor; assumption.
Qed.

Lemma Forall_sorted (P : Q -> Prop) (l : list Q) :
  Forall P l -> Forall P (sorted l).
Proof.
  intro H. induction H as [|x l Hx Hl IH]; simpl; [constructor|].
  apply Forall_insert_sorted; assumption.
Qed.

Lemma Forall_firstn {A : Type} (P : A -> Prop) (n : nat) (l : list A) :
  Forall P l -> Forall P (firstn n l).
Proof.
  intro H. revert n. induction H as [|x l Hx Hl IH]; intros [|n]; simpl;
    constructor; auto.
Qed.

Lemma div_nonneg (x y : Q) : (0 <= x)%Q -> (0 < y)%Q -> (0 <= x / y)%Q.
Proof.
  intros Hx Hy. apply Qle_shift_div_l; [exact Hy|]. rewrite Qmult_0_l. exact Hx.
Qed.

(** The interval filter keeps values strictly between 10 and 5000 ms. *)
Lemma interval_window (intervals : list Q) :
  Forall (fun i => Qltb 10 i && Qltb i 5000 = true) intervals ->
  Forall (fun i => 10 <= i /\ i <= 5000)%Q intervals.
Proof.
  intro H. eapply Forall_impl; [|exact H].
  intros i Hi. apply andb_true_iff in Hi. destruct Hi as [H1 H2].
  apply Qltb_lt in H1, H2. split; apply Qlt_le_weak; assumption.
Qed.

(** The ranges of the typing features that are returned. *)
Lemma typing_features_bounds (fromisoformat : string -> option Z)
  (np_std : list Q -> Q) (self : extractor) (keystrokes : list keystroke) :
  forall features,
    extract_typing_features fromisoformat np_std self keystrokes
    = Ok features ->
    (0 <= tf_backspace_rate features)%Q /\
    (tf_backspace_rate features <= 1)%Q /\
    (0 <= tf_pause_frequency features)%Q /\
    (tf_pause_frequency features <= 1)%Q /\
    (0 <= tf_typing_speed features)%Q /\
    (0 <= tf_burst_speed features)%Q /\
    (tf_burst_speed features <= 10)%Q.
Proof.
  intros features. unfold extract_typing_features.
  destruct (List.length keystrokes <? 10)%nat eqn:Hlen.
  { intro H. inversion H; subst. cbn. repeat split; lra. }
  apply Nat.ltb_ge in Hlen.
  destruct (mapM (fun ks => item_timestamp (ks_timestamp ks)) keystrokes)
    as [raw|e]; [|discriminate].
  cbn [bind].
  destruct (to_datetimes fromisoformat raw) as [timestamps|e]; [|discriminate].
  cbn [bind].
  set (all_intervals :=
         adjacent (fun a b => (total_seconds a b * 1000)%Q) timestamps).
  pose proof (interval_window _
                (Forall_filter_true (fun i => Qltb 10 i && Qltb i 5000)
                   all_intervals)) as Hwin.
  destruct (filter (fun i => Qltb 10 i && Qltb i 5000) all_intervals)
    as [|i0 intervals] eqn:Hint.
  { intro H. inversion H; subst. cbn. repeat split; lra. }
  remember (List.length (sorted (i0 :: intervals)) / 10)%nat as threshold
    eqn:Hthr0.
  remember (sorted (i0 :: intervals)) as sorted_intervals eqn:Hsorted.
  intro H. injection H as <-.
  cbn [tf_backspace_rate tf_pause_frequency tf_typing_speed tf_burst_speed].
  assert (Hne : i0 :: intervals <> []) by discriminate.
  destruct (ratio_unit (count is_backspace keystrokes)
              (List.length keystrokes)
              (filter_length_le _ _) ltac:(lia)) as [Hb0 Hb1].
  destruct (ratio_unit (count (fun i => Qltb 2000 i) (i0 :: intervals))
              (List.length (i0 :: intervals))
              (filter_length_le _ _) ltac:(simpl; lia)) as [Hp0 Hp1].
  split; [exact Hb0|]. split; [exact Hb1|].
  split; [exact Hp0|]. split; [exact Hp1|].
  split.
  + (* typing speed *)
    destruct (Qltb 0 (typing_speed (the_baseline self))) eqn:Hbase; [|lra].
    apply Qltb_lt in Hbase. apply div_nonneg; [|exact Hbase].
    destruct (Qltb 0 (total_seconds (hd 0%Z timestamps)
                        (last timestamps 0%Z))) eqn:Htime; [|lra].
    apply Qltb_lt in Htime.
    pose proof (div_nonneg (of_nat (List.length keystrokes)) _
                  (of_nat_nonneg _) Htime) as Hdiv.
    lra.
  + (* burst speed *)
    assert (Hburst :
      forall burst : list Q,
        burst <> [] ->
        Forall (fun i => 10 <= i /\ i <= 5000)%Q burst ->
        (0 <= 1000 / mean burst / 10 /\ 1000 / mean burst / 10 <= 10)%Q).
    { intros burst Hbne Hball.
      destruct (mean_bounds 10 5000 burst Hbne Hball) as [Hm0 Hm1].
      assert (Hmpos : (0 < mean burst)%Q) by lra.
      assert (H1 : (0 <= 1000 / mean burst)%Q)
        by (apply div_nonneg; [lra | exact Hmpos]).
      assert (H2 : (1000 / mean burst <= 100)%Q)
        by (apply Qle_shift_div_r; [exact Hmpos | lra]).
      revert H1 H2. generalize (1000 / mean burst)%Q. intros q H1 H2.
      split; [apply Qle_shift_div_l | apply Qle_shift_div_r];
        try reflexivity; lra. }
    destruct threshold as [|n].
    * apply Hburst; [discriminate|].
      constructor; [|constructor].
      apply (mean_bounds 10 5000 (i0 :: intervals) Hne Hwin).
    * apply Hburst.
      -- intro Hnil.
         assert (Hl : List.length (firstn (S n) sorted_intervals) = 0%nat)
           by (rewrite Hnil; reflexivity).
         rewrite length_firstn in Hl.
         assert (S n * 10 <= List.length sorted_intervals)%nat.
         { rewrite Hthr0.
           rewrite Nat.mul_comm. apply Nat.Div0.mul_div_le. }
         lia.
      -- apply Forall_firstn. rewrite Hsorted.
         apply Forall_sorted. exact Hwin.
Qed.

(** X8.  Fewer than ten keystrokes give the default typing features,
    whatever the events hold (their timestamps are not read).  Whenever
    typing features are returned, the backspace rate and the pause
    frequency lie in [0, 1], the typing speed is not negative, and the
    burst speed lies in [0, 10]. *)
Theorem typing_features_range (fromisoformat : string -> option Z)
  (np_std : list Q -> Q) (self : extractor) (keystrokes : list keystroke) :
  ((List.length keystrokes < 10)%nat ->
   extract_typing_features fromisoformat np_std self keystrokes
   = Ok typing_default) /\
  (forall features,
     extract_typing_features fromisoformat np_std self keystrokes
     = Ok features ->
     (0 <= tf_backspace_rate features)%Q /\
     (tf_backspace_rate features <= 1)%Q /\
     (0 <= tf_pause_frequency features)%Q /\
     (tf_pause_frequency features <= 1)%Q /\
     (0 <= tf_typing_speed features)%Q /\
     (0 <= tf_burst_speed features)%Q /\
     (tf_burst_speed features <= 10)%Q).
Proof.
  split.
  - intro Hlen. unfold extract_typing_features.
    apply Nat.ltb_lt in Hlen. rewrite Hlen. reflexivity.
  - apply typing_features_bounds.
Qed.

Lemma typing_features_range_witness :
  extract_typing_features no_iso (fun _ => 0) (FeatureExtractor.init 100)
    [ {| ks_timestamp := None; ks_is_backspace := None |} ]
  = Ok typing_default.
Proof.
  apply (proj1 (typing_features_range no_iso (fun _ => 0)
                  (FeatureExtractor.init 100)
                  [ {| ks_timestamp := None; ks_is_backspace := None |} ])).
  simpl. lia.
Defined.

(** ** Ranges of the behavioral features *)












(** ** The merged feature dictionary *)

Lemma extract_typing_features_baseline (fromisoformat : string -> option Z)
  (np_std : list Q -> Q) (a b : extractor) (keystrokes : list keystroke) :
  typing_speed (the_baseline a) = typing_speed (the_baseline b) ->
  extract_typing_features fromisoformat np_std a keystrokes
  = extract_typing_features fromisoformat np_std b keystrokes.
Proof. intro H. unfold extract_typing_features. rewrite H. reflexivity. Qed.

Lemma extract_compile_features_self (a b : extractor)
  (compiles : list compile_event) :
  extract_compile_features a compiles = extract_compile_features b compiles.
Proof.
  unfold extract_compile_features.
  assert (Hp : collect_error_patterns a compiles
               = collect_error_patterns b compiles).
  { induction compiles as [|c compiles IH]; simpl; [reflexivity|].
    rewrite IH. reflexivity. }
  assert (Hs : collect_severities a compiles = collect_severities b compiles).
  { clear Hp. induction compiles as [|c compiles IH]; simpl; [reflexivity|].
    rewrite IH. reflexivity. }
  rewrite Hp, Hs. reflexivity.
Qed.

(** X10.  The features that [extract_all_features] returns depend on the
    session and on the baseline typing speed only: the rolling windows, the
    window size and the other baseline entries of the extractor have no
    influence, so that what earlier calls left in the windows never changes
    the features of a call. *)
Theorem features_independent_of_rolling_windows
  (fromisoformat : string -> option Z) (np_std : list Q -> Q)
  (a b : extractor) (session : session_data) :
  typing_speed (the_baseline a) = typing_speed (the_baseline b) ->
  fst (extract_all_features fromisoformat np_std a session)
  = fst (extract_all_features fromisoformat np_std b session).
Proof.
  intro H. unfold extract_all_features. cbn [fst].
  rewrite (extract_typing_features_baseline fromisoformat np_std
             (update_rolling a session) (update_rolling b session)
             (session_keystrokes session) H).
  rewrite (extract_compile_features_self (update_rolling a session)
             (update_rolling b session)).
  reflexivity.
Qed.

Lemma features_independent_of_rolling_windows_witness :
  fst (extract_all_features no_iso (fun _ => 0)
         (FeatureExtractor.init 100) empty_session)
  = fst (extract_all_features no_iso (fun _ => 0)
           (update_rolling (FeatureExtractor.init 7)
              {| session_start := None;
                 last_activity := None;
                 keystrokes := Some [key_at 0; key_at 5];
                 compiles := Some [fail_at 0] |})
           empty_session).
Proof.
  apply (features_independent_of_rolling_windows no_iso (fun _ => 0)).
  reflexivity.
Defined.

Lemma has_key_lookup {V : Type} (d : dict V) (k : string) :
  has_key d k = true <-> exists v, lookup d k = Some v.
Proof.
  induction d as [|[k' v'] d IH]; simpl.
  - split; [discriminate | intros [v H]; discriminate].
  - destruct (String.eqb k k'); [|exact IH].
    split; [intros _; eexists; reflexivity | reflexivity].
Qed.

(** X11.  A feature dictionary returned by [extract_all_features] has
    exactly the eight canonical names as keys, in the canonical order, and
    its [UNDO_REDO_ATTEMPT] is 0 or 1.  Hence its values are the canonical
    vector; a loader without feature names, or with the canonical names,
    hands that vector to the predictor; the dictionary passes
    [validate_features]; and the round trip through
    [dict_to_feature_vector] and [feature_vector_to_dict] returns it
    unchanged. *)
Theorem extracted_features_are_canonical
  (fromisoformat : string -> option Z) (np_std : list Q -> Q)
  (self : extractor) (session : session_data) (features : dict Q) :
  fst (extract_all_features fromisoformat np_std self session) = Ok features ->
  keys features = get_feature_names /\
  (get features "UNDO_REDO_ATTEMPT" 0 = 0%Q \/
   get features "UNDO_REDO_ATTEMPT" 0 = 1%Q) /\
  dict_to_feature_vector features = values features /\
  feature_vector_to_dict (dict_to_feature_vector features) = Ok features /\
  (forall loader : model_loader,
     feature_names loader = None \/
     feature_names loader = Some get_feature_names ->
     feature_vector loader features = dict_to_feature_vector features /\
     validate_features loader features = (true, [])).
Proof.
  unfold extract_all_features. cbn [fst].
  destruct (extract_typing_features fromisoformat np_std
              (update_rolling self session) (session_keystrokes session))
    as [typing|e]; [|discriminate].
  cbn [bind].
  destruct (extract_behavioral_features fromisoformat
              (update_rolling self session) session)
    as [behavioral|e]; [|discriminate].
  cbn [bind]. intro H. injection H as <-.
  split; [reflexivity|].
  split.
  { unfold get. cbn.
    destruct (Qltb (4 # 10) (tf_backspace_rate typing)); [right | left];
      reflexivity. }
  split; [reflexivity|]. split; [reflexivity|].
  intros loader [Hnames | Hnames];
    unfold feature_vector, validate_features; rewrite Hnames;
    split; reflexivity.
Qed.

Lemma extracted_features_are_canonical_witness :
  exists features,
    fst (extract_all_features no_iso (fun _ => 0)
           (FeatureExtractor.init 100) empty_session) = Ok features /\
    keys features = get_feature_names.
Proof.
  eexists. split; [vm_compute; reflexivity|].
  apply (proj1 (extracted_features_are_canonical no_iso (fun _ => 0)
                  (FeatureExtractor.init 100) empty_session _ eq_refl)).
Defined.

(** X12.  [validate_features] accepts a dictionary exactly when every loaded
    feature name is one of its keys; the names it reports as missing are
    the loaded names that are not keys, in the loaded order.  For an
    accepted dictionary the vector handed to the predictor holds the
    dictionary's own values: no default is used.  Without loaded names
    every dictionary is accepted. *)
Theorem validate_features_meaning (self : model_loader)
  (feature_dict : dict Q) :
  (forall names,
     feature_names self = Some names -> names <> [] ->
     (fst (validate_features self feature_dict) = true <->
      forall name, In name names -> has_key feature_dict name = true) /\
     snd (validate_features self feature_dict)
     = filter (fun name => negb (has_key feature_dict name)) names /\
     (fst (validate_features self feature_dict) = true ->
      map Some (feature_vector self feature_dict)
      = map (lookup feature_dict) names)) /\
  (feature_names self = None \/ feature_names self = Some [] ->
   validate_features self feature_dict = (true, [])).
Proof.
  split.
  - intros names Hnames Hne.
    unfold validate_features, feature_vector. rewrite Hnames.
    destruct names as [|name names]; [congruence|]. cbn [fst snd].
    set (all_names := name :: names).
    assert (Hiff : (List.length
                      (filter (fun n => negb (has_key feature_dict n)) all_names)
                    =? 0)%nat = true
                   <-> forall n, In n all_names -> has_key feature_dict n = true).
    { rewrite Nat.eqb_eq, length_zero_iff_nil. split.
      - intros Hnil n Hin.
        destruct (has_key feature_dict n) eqn:Hk; [reflexivity|].
        assert (In n (filter (fun n => negb (has_key feature_dict n)) all_names))
          by (apply filter_In; split; [exact Hin | rewrite Hk; reflexivity]).
        rewrite Hnil in H. contradiction.
      - intro Hall. destruct (filter _ all_names) as [|n l] eqn:E; [reflexivity|].
        assert (Hin : In n (filter (fun n => negb (has_key feature_dict n))
                              all_names))
          by (rewrite E; left; reflexivity).
        apply filter_In in Hin. destruct Hin as [Hin Hk].
        rewrite (Hall n Hin) in Hk. discriminate. }
    split; [exact Hiff|]. split; [reflexivity|].
    intro Hvalid0. pose proof (proj1 Hiff Hvalid0) as Hvalid.
    rewrite map_map. apply map_ext_in. intros n Hn.
    destruct (proj1 (has_key_lookup feature_dict n) (Hvalid n Hn)) as [v Hv].
    unfold get. rewrite Hv. reflexivity.
  - intros [H | H]; unfold validate_features; rewrite H; reflexivity.
Qed.

Lemma validate_features_meaning_witness :
  let self :=
    {| feature_names := Some ["TYPING_SPEED"; "RED_METRIC"]%string;
       label_classes := ["Extreme"; "High"; "Low"; "Moderate"]%string;
       predict := fun vector => Ok ("Low"%string, 1, vector) |} in
  snd (validate_features self [("RED_METRIC"%string, 3)])
  = ["TYPING_SPEED"%string].
Proof.
  intro self.
  destruct (proj1 (validate_features_meaning self [("RED_METRIC"%string, 3)])
              ["TYPING_SPEED"; "RED_METRIC"]%string eq_refl
              ltac:(discriminate)) as (_ & Hmissing & _).
  rewrite Hmissing. reflexivity.
Defined.

(** ** Rolling windows *)

Lemma latest_length {A : Type} (n : nat) (l : list A) :
  (List.length (latest n l) <= n)%nat.
Proof. unfold latest. rewrite length_skipn. lia. Qed.

Lemma latest_all {A : Type} (n : nat) (l : list A) :
  (List.length l <= n)%nat -> latest n l = l.
Proof.
  intro H. unfold latest. replace (List.length l - n)%nat with 0%nat by lia.
  reflexivity.
Qed.

Lemma skipn_skipn_add {A : Type} (x y : nat) (l : list A) :
  skipn x (skipn y l) = skipn (y + x) l.
Proof.
  revert l. induction y as [|y IH]; intro l; [reflexivity|].
  destruct l as [|a l]; [rewrite !skipn_nil; reflexivity|].
  simpl. apply IH.
Qed.

Lemma latest_app_l {A : Type} (n : nat) (a b : list A) :
  latest n (latest n a ++ b) = latest n (a ++ b).
Proof.
  unfold latest.
  set (k := (List.length a - n)%nat).
  assert (Hk : (k <= List.length a)%nat) by (unfold k; lia).
  replace (skipn k a ++ b) with (skipn k (a ++ b)).
  - rewrite skipn_skipn_add, length_skipn, length_app. f_equal. unfold k. lia.
  - rewrite skipn_app. replace (k - List.length a)%nat with 0%nat by lia.
    reflexivity.
Qed.

Lemma latest_app_r {A : Type} (n : nat) (a b : list A) :
  latest n (a ++ latest n b) = latest n (a ++ b).
Proof.
  destruct (Nat.le_gt_cases (List.length b) n) as [Hle | Hgt].
  - rewrite (latest_all n b Hle). reflexivity.
  - unfold latest. set (j := (List.length b - n)%nat).
    rewrite !length_app, length_skipn.
    replace (List.length a + (List.length b - j) - n)%nat
      with (List.length a + 0)%nat by (unfold j; lia).
    replace (List.length a + List.length b - n)%nat
      with (List.length a + j)%nat by (unfold j; lia).
    rewrite !skipn_app.
    replace (skipn (List.length a + 0) a) with (@nil A)
      by (symmetry; apply skipn_all2; lia).
    replace (skipn (List.length a + j) a) with (@nil A)
      by (symmetry; apply skipn_all2; lia).
    replace (List.length a + 0 - List.length a)%nat with 0%nat by lia.
    replace (List.length a + j - List.length a)%nat with j by lia.
    reflexivity.
Qed.

(** Appending to a bounded deque keeps the latest elements. *)
Lemma fold_deque_append {A : Type} (maxlen : nat) (xs : list A) :
  forall dq,
    (List.length dq <= maxlen)%nat ->
    fold_left (deque_append maxlen) xs dq = latest maxlen (dq ++ xs).
Proof.
  induction xs as [|x xs IH]; intros dq Hlen.
  - simpl. rewrite app_nil_r, latest_all; [reflexivity | exact Hlen].
  - cbn [fold_left].
    assert (Hstep : deque_append maxlen dq x = latest maxlen (dq ++ [x])).
    { unfold deque_append, latest. destruct maxlen; [|reflexivity].
      assert (dq = []) by (destruct dq; [reflexivity | simpl in Hlen; lia]).
      subst dq. reflexivity. }
    rewrite Hstep, IH by apply latest_length.
    rewrite latest_app_l, <- app_assoc. reflexivity.
Qed.

Lemma last_n_latest {A : Type} (n : nat) (l : list A) :
  (0 < n)%nat -> last_n n l = latest n l.
Proof. intro H. destruct n; [lia | reflexivity]. Qed.

(** X13.  After [extract_all_features], whether or not it raised, the
    rolling keystroke window holds the latest [window_size] keystrokes of
    what it held followed by the session's keystrokes, and the rolling
    compile window holds the latest [window_size // 10] compiles of what it
    held followed by the session's last ten compiles; neither window
    exceeds its capacity, and the window size and the baseline are
    unchanged. *)
Theorem rolling_windows_keep_latest (fromisoformat : string -> option Z)
  (np_std : list Q -> Q) (self : extractor) (session : session_data) :
  (List.length (rolling_keystrokes self) <= window_size self)%nat ->
  (List.length (rolling_compiles self) <= window_size self / 10)%nat ->
  let after := snd (extract_all_features fromisoformat np_std self session) in
  rolling_keystrokes after
  = latest (window_size self)
      (rolling_keystrokes self ++ session_keystrokes session) /\
  rolling_compiles after
  = latest (window_size self / 10)
      (rolling_compiles self ++ last_n 10 (session_compiles session)) /\
  (List.length (rolling_keystrokes after) <= window_size after)%nat /\
  (List.length (rolling_compiles after) <= window_size after / 10)%nat /\
  window_size after = window_size self /\
  the_baseline after = the_baseline self.
Proof.
  intros Hk Hc after. subst after. unfold extract_all_features. cbn [snd].
  unfold update_rolling.
  cbn [rolling_keystrokes rolling_compiles window_size the_baseline].
  rewrite !fold_deque_append by assumption.
  assert (Hkeys : latest (window_size self)
                    (rolling_keystrokes self
                     ++ last_n (window_size self) (session_keystrokes session))
                  = latest (window_size self)
                      (rolling_keystrokes self ++ session_keystrokes session)).
  { destruct (window_size self) as [|w] eqn:Hw.
    - unfold latest. rewrite !Nat.sub_0_r, !skipn_all. reflexivity.
    - rewrite last_n_latest by lia. apply latest_app_r. }
  rewrite Hkeys.
  repeat split; try reflexivity; apply latest_length.
Qed.

Lemma rolling_windows_keep_latest_witness :
  rolling_keystrokes
    (snd (extract_all_features no_iso (fun _ => 0) (FeatureExtractor.init 2)
            {| session_start := None;
               last_activity := None;
               keystrokes := Some [key_at 0; key_at 1; key_at 2];
               compiles := None |}))
  = latest 2 ([] ++ [key_at 0; key_at 1; key_at 2]).
Proof.
  apply (rolling_windows_keep_latest no_iso (fun _ => 0)
           (FeatureExtractor.init 2)
           {| session_start := None;
              last_activity := None;
              keystrokes := Some [key_at 0; key_at 1; key_at 2];
              compiles := None |}).
  - simpl. lia.
  - simpl. lia.
Defined.

(** ** Parsing the timestamps of a session *)












(** ** Extraction from a parsed session *)








(** ** A request that completes *)

Lemma should_intervene_keeps (self : detector) (anxiety_level : string)
  (confidence : Q) (now_check now_stamp : Z) :
  let after := snd (should_intervene self anxiety_level confidence
                      now_check now_stamp) in
  feature_extractor after = feature_extractor self /\
  the_model_loader after = the_model_loader self /\
  intervention_cooldown after = intervention_cooldown self.
Proof.
  destruct (should_intervene_step self anxiety_level confidence
              now_check now_stamp) as (_ & Htrue & Hfalse).
  cbv zeta.
  destruct (fst (should_intervene self anxiety_level confidence
                   now_check now_stamp)).
  - rewrite (Htrue eq_refl). repeat split.
  - rewrite (Hfalse eq_refl). repeat split.
Qed.

(** X16.  When [analyze_session] returns, the features of the result are
    those extracted from the parsed session with the baseline as it was
    before the request; the baseline afterwards is that baseline updated
    once with these features (weight 0.1, [samples] plus one); the level,
    confidence and probabilities are the oracle's answer for these
    features; the triggered features are never empty; and
    [should_intervene] is true only for level 'High' or 'Extreme' with
    confidence above 0.7, in which case [last_intervention] becomes the
    current time, and is unchanged otherwise. *)
Theorem completed_request_state (fromisoformat : string -> option Z)
  (np_std : list Q -> Q) (self : detector) (session : session_data)
  (now_check now_stamp now_result : Z) (a : analysis) (self' : detector) :
  analyze_session fromisoformat np_std self session
    now_check now_stamp now_result = (Ok a, self') ->
  exists parsed,
    parse_session fromisoformat session = Ok parsed /\
    fst (extract_all_features fromisoformat np_std
           (feature_extractor self) parsed) = Ok (a_features a) /\
    predict_from_dict (the_model_loader self) (a_features a)
    = Ok (a_level a, a_confidence a, a_probabilities a) /\
    a_triggered_features a = get_triggered_features (a_features a) /\
    a_triggered_features a <> [] /\
    a_timestamp a = now_result /\
    the_baseline (feature_extractor self')
    = the_baseline
        (update_baseline (feature_extractor self) (a_features a) (1 # 10)) /\
    samples (the_baseline (feature_extractor self'))
    = (samples (the_baseline (feature_extractor self)) + 1)%Z /\
    (a_should_intervene a = true ->
     (a_level a = "High"%string \/ a_level a = "Extreme"%string) /\
     (7 # 10 < a_confidence a)%Q /\
     last_intervention self' = Some now_stamp) /\
    (a_should_intervene a = false ->
     last_intervention self' = last_intervention self) /\
    intervention_cooldown self' = intervention_cooldown self.
Proof.
  unfold analyze_session.
  destruct (parse_session fromisoformat session) as [parsed|e0] eqn:Hparse;
    [|discriminate].
  pose proof (extract_all_features_baseline fromisoformat np_std
                (feature_extractor self) parsed) as Hbase.
  destruct (extract_all_features fromisoformat np_std
              (feature_extractor self) parsed) as [[features|e1] fe] eqn:Hext;
    [|discriminate].
  cbn [snd] in Hbase. cbn [the_model_loader with_extractor].
  destruct (predict_from_dict (the_model_loader self) features)
    as [[[predicted_class confidence] probabilities]|e2] eqn:Hpred;
    [|discriminate].
  set (updated := with_extractor self (update_baseline fe features (1 # 10))).
  destruct (should_intervene_step updated predicted_class confidence
              now_check now_stamp) as (Hiff & Htrue & Hfalse).
  destruct (should_intervene_keeps updated predicted_class confidence
              now_check now_stamp) as (Hfe & _ & Hcool).
  destruct (should_intervene updated predicted_class confidence
              now_check now_stamp) as [should after] eqn:Hsi.
  cbn [fst snd] in *.
  intro H. injection H as <- <-.
  exists parsed. cbn [a_features a_level a_confidence a_probabilities
                      a_triggered_features a_timestamp a_should_intervene].
  split; [reflexivity|]. split; [rewrite Hext; reflexivity|].
  split; [exact Hpred|].
  split; [reflexivity|].
  split.
  { rewrite get_triggered_features_fired.
    destruct (fired features); discriminate. }
  split; [reflexivity|].
  assert (Hb : the_baseline (feature_extractor after)
               = the_baseline
                   (update_baseline (feature_extractor self) features (1 # 10))).
  { rewrite Hfe. unfold updated. cbn [feature_extractor with_extractor].
    unfold update_baseline. cbn [the_baseline]. rewrite Hbase. reflexivity. }
  split; [exact Hb|].
  split; [rewrite Hb; reflexivity|].
  split.
  { intro Hs. destruct (proj1 Hiff Hs) as (_ & Hlevel & Hconf).
    split; [apply level_is_high_iff, Hlevel|]. split; [exact Hconf|].
    rewrite (Htrue Hs). reflexivity. }
  split.
  { intro Hs. rewrite (Hfalse Hs). reflexivity. }
  exact Hcool.
Qed.

Lemma completed_request_state_witness :
  exists a self',
    analyze_session no_iso (fun _ => 0)
      (AnxietyDetector.init alarmed_loader) empty_session 0 0 7
    = (Ok a, self') /\
    a_timestamp a = 7%Z /\
    samples (the_baseline (feature_extractor self')) = 1%Z.
Proof.
  eexists. eexists. split; [vm_compute; reflexivity|].
  destruct (completed_request_state no_iso (fun _ => 0)
              (AnxietyDetector.init alarmed_loader) empty_session
              0 0 7 _ _ eq_refl)
    as (parsed & _ & _ & _ & _ & _ & Htime & _ & Hsamples & _).
  split; [exact Htime | exact Hsamples].
Defined.

(** ** The baseline stays usable *)

Lemma extracted_typing_values (fromisoformat : string -> option Z)
  (np_std : list Q -> Q) (self : extractor) (session : session_data)
  (features : dict Q) :
  fst (extract_all_features fromisoformat np_std self session) = Ok features ->
  (0 <= get features "TYPING_SPEED" 1)%Q /\
  (0 <= get features "BACKSPACE_RATE" (15 # 100))%Q /\
  (get features "BACKSPACE_RATE" (15 # 100) <= 1)%Q.
Proof.
  unfold extract_all_features. cbn [fst].
  destruct (extract_typing_features fromisoformat np_std
              (update_rolling self session) (session_keystrokes session))
    as [typing|e] eqn:Ht; [|discriminate].
  cbn [bind].
  destruct (extract_behavioral_features fromisoformat
              (update_rolling self session) session)
    as [behavioral|e]; [|discriminate].
  cbn [bind]. intro H. injection H as <-.
  destruct (typing_features_bounds fromisoformat np_std _ _ typing Ht)
    as (Hb0 & Hb1 & _ & _ & Hs & _).
  repeat split; assumption.
Qed.

Lemma update_baseline_ok (self : extractor) (features : dict Q) :
  baseline_ok (the_baseline self) ->
  (0 <= get features "TYPING_SPEED" 1)%Q ->
  (0 <= get features "BACKSPACE_RATE" (15 # 100))%Q ->
  (get features "BACKSPACE_RATE" (15 # 100) <= 1)%Q ->
  baseline_ok (the_baseline (update_baseline self features (1 # 10))).
Proof.
  intros (Hts & Hb0 & Hb1 & Hs) Hf0 Hf1 Hf2.
  unfold update_baseline, baseline_ok.
  cbn [the_baseline typing_speed backspace_rate samples].
  repeat split; try lra. lia.
Qed.

(** What a request does to the baseline, whatever its outcome. *)
Lemma analyze_session_baseline_ok (fromisoformat : string -> option Z)
  (np_std : list Q -> Q) (self : detector) (session : session_data)
  (now_check now_stamp now_result : Z) :
  baseline_ok (the_baseline (feature_extractor self)) ->
  let after := snd (analyze_session fromisoformat np_std self session
                      now_check now_stamp now_result) in
  baseline_ok (the_baseline (feature_extractor after)) /\
  (samples (the_baseline (feature_extractor self))
   <= samples (the_baseline (feature_extractor after)))%Z.
Proof.
  intros Hok after. subst after. unfold analyze_session.
  destruct (parse_session fromisoformat session) as [parsed|e0];
    [|cbn [snd]; split; [exact Hok | lia]].
  pose proof (extract_all_features_baseline fromisoformat np_std
                (feature_extractor self) parsed) as Hbase.
  pose proof (extracted_typing_values fromisoformat np_std
                (feature_extractor self) parsed) as Hvalues.
  destruct (extract_all_features fromisoformat np_std
              (feature_extractor self) parsed) as [[features|e1] fe].
  - cbn [fst snd] in *. destruct (Hvalues features eq_refl) as (Hf0 & Hf1 & Hf2).
    assert (Hfe : baseline_ok (the_baseline fe)) by (rewrite Hbase; exact Hok).
    pose proof (update_baseline_ok fe features Hfe Hf0 Hf1 Hf2) as Hupd.
    assert (Hsamples :
      (samples (the_baseline (feature_extractor self))
       <= samples (the_baseline (update_baseline fe features (1 # 10))))%Z).
    { unfold update_baseline. cbn [the_baseline samples]. rewrite Hbase. lia. }
    cbn [the_model_loader with_extractor].
    destruct (predict_from_dict (the_model_loader self) features)
      as [[[predicted_class confidence] probabilities]|e2].
    + destruct (should_intervene_keeps
                  (with_extractor self (update_baseline fe features (1 # 10)))
                  predicted_class confidence now_check now_stamp)
        as (Hkeep & _ & _).
      destruct (should_intervene
                  (with_extractor self (update_baseline fe features (1 # 10)))
                  predicted_class confidence now_check now_stamp)
        as [should after].
      cbn [snd] in *. rewrite Hkeep. cbn [feature_extractor with_extractor].
      split; assumption.
    + cbn [snd feature_extractor with_extractor]. split; assumption.
  - cbn [fst snd feature_extractor with_extractor] in *. rewrite Hbase.
    split; [exact Hok | lia].
Qed.

(** X17.  Whatever a request does (complete or abort), it keeps the
    baseline usable: a positive baseline typing speed stays positive (the
    extractor's division by it stays defined), the baseline backspace rate
    stays in [0, 1], and the sample count never decreases. *)
Theorem baseline_stays_usable (fromisoformat : string -> option Z)
  (np_std : list Q -> Q) (self : detector) (session : session_data)
  (now_check now_stamp now_result : Z) :
  baseline_ok (the_baseline (feature_extractor self)) ->
  let after := snd (analyze_session fromisoformat np_std self session
                      now_check now_stamp now_result) in
  baseline_ok (the_baseline (feature_extractor after)) /\
  (samples (the_baseline (feature_extractor self))
   <= samples (the_baseline (feature_extractor after)))%Z.
Proof.
  apply analyze_session_baseline_ok.
Qed.

Lemma baseline_stays_usable_witness :
  baseline_ok
    (the_baseline
       (feature_extractor
          (snd (analyze_session no_iso (fun _ => 0)
                  (AnxietyDetector.init loader_without_names)
                  empty_session 0 0 0)))).
Proof.
  apply (baseline_stays_usable no_iso (fun _ => 0)
           (AnxietyDetector.init loader_without_names) empty_session 0 0 0).
  unfold baseline_ok. cbn.
  split; [reflexivity|]. split; [discriminate|]. split; discriminate.
Defined.

(** ** The request handler *)









(** X19.  An [initialize] request that fails answers "Initialization
    failed" and leaves the server as it was, so that a detector created
    earlier keeps serving.  One that succeeds installs a new detector: no
    intervention recorded, the default baseline with no samples, empty
    rolling windows; whatever the previous detector had learned or
    recorded is dropped.  Before any successful [initialize], [analyze]
    and [get_hint] answer "Detector not initialized" without raising and
    without changing the server. *)
Theorem initialize_and_refusals (fromisoformat : string -> option Z)
  (np_std : list Q -> Q) (load_models : option string -> option model_loader)
  (self : server) (data : request) (now_check now_stamp now_result : Z) :
  let outcome := handle_request fromisoformat np_std load_models self data
                   now_check now_stamp now_result in
  (r_type data = Some "initialize"%string ->
   (load_models (r_model_dir data) = None ->
    outcome = (Ok (StatusMessage "error" "Initialization failed"), self)) /\
   (forall loader,
      load_models (r_model_dir data) = Some loader ->
      fst outcome = Ok (StatusMessage "ok" "Detector initialized") /\
      running (snd outcome) = running self /\
      exists d,
        the_detector (snd outcome) = Some d /\
        the_model_loader d = loader /\
        last_intervention d = None /\
        feature_extractor d = FeatureExtractor.init 100 /\
        samples (the_baseline (feature_extractor d)) = 0%Z)) /\
  (the_detector self = None ->
   r_type data = Some "analyze"%string \/
   r_type data = Some "get_hint"%string ->
   outcome = (Ok (StatusMessage "error" "Detector not initialized"), self)).
Proof.
  cbv zeta. unfold handle_request. split.
  - intro Ht. rewrite Ht. cbn. unfold initialize_detector. split.
    + intro Hload. rewrite Hload. reflexivity.
    + intros loader Hload. rewrite Hload. cbn.
      split; [reflexivity|]. split; [reflexivity|].
      eexists. repeat split.
  - intros Hnone [Ht | Ht]; rewrite Ht; cbn; rewrite Hnone; reflexivity.
Qed.

Lemma initialize_and_refusals_witness :
  handle_request no_iso (fun _ => 0) (fun _ => None) new_server
    {| r_type := Some "analyze"%string;
       r_model_dir := None;
       r_session := None;
       r_error_type := None |} 0 0 0
  = (Ok (StatusMessage "error" "Detector not initialized"), new_server).
Proof.
  apply (proj2 (initialize_and_refusals no_iso (fun _ => 0) (fun _ => None)
                  new_server
                  {| r_type := Some "analyze"%string;
                     r_model_dir := None;
                     r_session := None;
                     r_error_type := None |} 0 0 0)).
  - reflexivity.
  - left. reflexivity.
Defined.

(** ** [datetime_parser] *)

Lemma parse_value_idem {A : Type} (fromisoformat : string -> option Z)
  (v : json_value A) :
  parse_value fromisoformat (parse_value fromisoformat v)
  = parse_value fromisoformat v.
Proof.
  destruct v as [s|t|a]; cbn; try reflexivity.
  destruct (fromisoformat s) eqn:E; cbn; [reflexivity|].
  rewrite E. reflexivity.
Qed.

Lemma datetime_parser_map {A : Type} (fromisoformat : string -> option Z)
  (dct : dict (json_value A)) :
  datetime_parser fromisoformat dct
  = map (fun kv => (fst kv, parse_value fromisoformat (snd kv))) dct.
Proof.
  unfold datetime_parser. apply map_ext. intros [k [s|t|a]]; cbn;
    try reflexivity.
  destruct (fromisoformat s); reflexivity.
Qed.

(** X20.  [datetime_parser] keeps the keys of the dictionary and their
    order; under each key it replaces a string that [fromisoformat] accepts
    by the datetime and leaves every other value (a string that is not a
    date, a datetime, anything else) as it is, so that a malformed date is
    not an error here; applying it twice is applying it once. *)
Theorem datetime_parser_lenient {A : Type}
  (fromisoformat : string -> option Z) (dct : dict (json_value A)) :
  keys (datetime_parser fromisoformat dct) = keys dct /\
  (forall k,
     lookup (datetime_parser fromisoformat dct) k
     = option_map (parse_value fromisoformat) (lookup dct k)) /\
  datetime_parser fromisoformat (datetime_parser fromisoformat dct)
  = datetime_parser fromisoformat dct.
Proof.
  rewrite !datetime_parser_map. split; [|split].
  - unfold keys. rewrite map_map. reflexivity.
  - intro k. induction dct as [|[k' v] dct IH]; [reflexivity|].
    cbn. destruct (String.eqb k k'); [reflexivity | exact IH].
  - rewrite map_map. apply map_ext. intros [k v]. cbn.
    rewrite parse_value_idem. reflexivity.
Qed.
